(** * A shallow embedding of the PCI compliance agent (pci_agent)

    The Python sources modelled here are [detection_engine.py],
    [report_generator.py], [secure_client.py], [file_scanner.py] and
    [audit_logger.py].

    Conventions:
    - a Python [str] is a list of Unicode code points ([pystr]);
    - the Unicode character database that Python consults ([str.isdigit],
      [int()] on one character, the [\d] and [\w] classes of [re], and
      [str.lower]) is a record [unicode_db]; theorems hold for every database
      that agrees with Unicode on ASCII ([db_ascii_ok]);
    - Python exceptions are the [Raise] case of [result];
    - Python floats are modelled by exact rationals ([Q]). *)

From Stdlib Require Import String Ascii List NArith ZArith Arith Bool Lia QArith Qround Lqa Permutation.
Import ListNotations.
Open Scope nat_scope.
Set Warnings "-register-all,-abstract-large-number".

(* ================================================================== *)
(** ** Python values *)

Definition pystr := list N.

(** A Rocq string literal read as a Python [str] (ASCII only). *)
Definition py (s : string) : pystr := map N_of_ascii (list_ascii_of_string s).

Definition pystr_eqb (a b : pystr) : bool := if list_eq_dec N.eq_dec a b then true else false.

(** [needle in haystack] for strings. *)
Fixpoint is_prefix (p s : pystr) : bool :=
  match p, s with
  | [], _ => true
  | _, [] => false
  | a :: p', b :: s' => (a =? b)%N && is_prefix p' s'
  end.
Fixpoint is_infix (p s : pystr) : bool :=
  match s with
  | [] => is_prefix p []
  | _ :: s' => is_prefix p s || is_infix p s'
  end.

Inductive py_exc :=
| ValueError
| KeyError
| TypeError
| AttributeError
| ReError (msg : pystr).

Inductive result (A : Type) :=
| Ok (a : A)
| Raise (e : py_exc).
Arguments Ok {A} a.
Arguments Raise {A} e.

Definition rbind {A B} (m : result A) (k : A -> result B) : result B :=
  match m with Ok a => k a | Raise e => Raise e end.

Notation "x <- m ;; k" := (rbind m (fun x => k))
  (at level 61, m at next level, right associativity).

Fixpoint mapR {A B} (f : A -> result B) (l : list A) : result (list B) :=
  match l with
  | [] => Ok []
  | a :: l' => b <- f a ;; bs <- mapR f l' ;; Ok (b :: bs)
  end.

(** The Unicode database as seen through Python. *)
Record unicode_db := {
  u_isdigit : N -> bool;        (* str.isdigit on one character *)
  u_decimal : N -> option nat;  (* int(c) on one character; None = ValueError *)
  u_isword : N -> bool;         (* sre word character: c.isalnum() or c == '_' *)
  u_lower : pystr -> pystr      (* str.lower *)
}.

Definition is_ascii_digit (c : N) : bool := ((48 <=? c) && (c <=? 57))%N.
Definition is_ascii_upper (c : N) : bool := ((65 <=? c) && (c <=? 90))%N.
Definition is_ascii_lower (c : N) : bool := ((97 <=? c) && (c <=? 122))%N.
Definition ascii_lower_char (c : N) : N := if is_ascii_upper c then (c + 32)%N else c.

(** What every Python build agrees on for ASCII. *)
Record db_ascii_ok (db : unicode_db) : Prop := {
  ok_digit : forall c, (c < 128)%N -> u_isdigit db c = is_ascii_digit c;
  ok_decimal : forall c, (c < 128)%N ->
      u_decimal db c = if is_ascii_digit c then Some (N.to_nat (c - 48)) else None;
  ok_decimal_digit : forall c v, u_decimal db c = Some v -> u_isdigit db c = true /\ v < 10;
  ok_word : forall c, (c < 128)%N ->
      u_isword db c = is_ascii_digit c || is_ascii_upper c || is_ascii_lower c || (c =? 95)%N;
  ok_lower : forall s, Forall (fun c => c < 128)%N s -> u_lower db s = map ascii_lower_char s
}.

(** [re]'s [\d] on str patterns: Unicode decimal digits. *)
Definition re_digit (db : unicode_db) (c : N) : bool :=
  match u_decimal db c with Some _ => true | None => false end.

(* ================================================================== *)
(** ** Regular expressions ([re]) with Python's backtracking semantics *)

Inductive regex :=
| RClass (p : N -> bool)          (* one character satisfying p *)
| RSeq (r1 r2 : regex)
| RAlt (r1 r2 : regex)            (* left alternative tried first *)
| RStar (r : regex)               (* greedy *)
| RWordB                          (* \b *)
| REmpty.

Definition rchar (c : N) : regex := RClass (N.eqb c).
Definition rrange (a b : N) : regex := RClass (fun c => (a <=? c) && (c <=? b))%N.
Definition rd09 : regex := rrange 48 57.                       (* [0-9] *)
Definition rdig (db : unicode_db) : regex := RClass (re_digit db). (* \d *)

Fixpoint rlit (s : list N) : regex :=
  match s with [] => REmpty | c :: s' => RSeq (rchar c) (rlit s') end.
Fixpoint rrep (n : nat) (r : regex) : regex :=
  match n with 0 => REmpty | S n' => RSeq r (rrep n' r) end.
Definition ropt (r : regex) : regex := RAlt r REmpty.            (* r? *)
Definition rplus (r : regex) : regex := RSeq r (RStar r).        (* r+ *)
Definition ratleast (n : nat) (r : regex) : regex := RSeq (rrep n r) (RStar r). (* r{n,} *)
(** [r{m,n}], greedy: as many as possible first. *)
Fixpoint ropts (k : nat) (r : regex) : regex :=
  match k with 0 => REmpty | S k' => ropt (RSeq r (ropts k' r)) end.
Definition rbetween (m n : nat) (r : regex) : regex := RSeq (rrep m r) (ropts (n - m) r).

Section Matcher.
Variable db : unicode_db.
Variable s : pystr.

Definition is_word_at (i : nat) : bool :=
  match nth_error s i with Some c => u_isword db c | None => false end.

Definition at_boundary (i : nat) : bool :=
  let before := match i with 0 => false | S i' => is_word_at i' end in
  xorb before (is_word_at i).

(** The greedy loop of [r*]: [body i k'] matches one iteration at [i] and
    continues with [k']; an iteration that matches the empty string fails
    (sre's guard against empty repetitions); [fuel] bounds the number of
    iterations. *)
Definition star_loop (body : nat -> (nat -> option nat) -> option nat)
    (k : nat -> option nat) : nat -> nat -> option nat :=
  fix loop (fuel : nat) (i : nat) : option nat :=
    match fuel with
    | 0 => k i
    | S f =>
        match body i (fun j => if j =? i then None else loop f j) with
        | Some j => Some j
        | None => k i
        end
    end.

(** [bt r i k]: try to match [r] at position [i], then the continuation [k]
    on the end position; the first success in backtracking order wins. *)
Fixpoint bt (r : regex) (i : nat) (k : nat -> option nat) {struct r} : option nat :=
  match r with
  | RClass p =>
      match nth_error s i with
      | Some c => if p c then k (S i) else None
      | None => None
      end
  | RSeq r1 r2 => bt r1 i (fun j => bt r2 j k)
  | RAlt r1 r2 =>
      match bt r1 i k with Some j => Some j | None => bt r2 i k end
  | RStar r1 => star_loop (fun i k' => bt r1 i k') k (length s - i + 1) i
  | RWordB => if at_boundary i then k i else None
  | REmpty => k i
  end.

(** End of the match of [r] starting at [i], if any. *)
Definition match_at (r : regex) (i : nat) : option nat := bt r i (fun j => Some j).

(** [regex.search(s) is not None] *)
Definition re_search (r : regex) : bool :=
  existsb (fun i => match match_at r i with Some _ => true | None => false end)
          (seq 0 (S (length s))).

(** Spans of [regex.finditer(s)]. *)
Fixpoint finditer_from (fuel i : nat) (r : regex) : list (nat * nat) :=
  match fuel with
  | 0 => []
  | S f =>
      if length s <? i then []
      else
        match match_at r i with
        | Some j => (i, j) :: finditer_from f (if j =? i then S i else j) r
        | None => finditer_from f (S i) r
        end
  end.

Definition finditer (r : regex) : list (nat * nat) := finditer_from (S (length s)) 0 r.

(** Python slicing [s[i:j]] for 0 <= i, j. *)
Definition slice (i j : nat) : pystr := firstn (j - i) (skipn i s).

(** [regex.findall(s)] for a pattern without groups. *)
Definition findall (r : regex) : list pystr :=
  map (fun '(i, j) => slice i j) (finditer r).

(** [regex.sub(repl, s)] once the template has been parsed to the literal
    [repl]. *)
Fixpoint sub_from (fuel i : nat) (r : regex) (repl : pystr) : pystr :=
  match fuel with
  | 0 => []
  | S f =>
      match match_at r i with
      | Some j =>
          if j =? i then
            repl ++ match nth_error s i with
                    | Some c => c :: sub_from f (S i) r repl
                    | None => []
                    end
          else repl ++ sub_from f j r repl
      | None =>
          match nth_error s i with
          | Some c => c :: sub_from f (S i) r repl
          | None => []
          end
      end
  end.

Definition sub_literal (r : regex) (repl : pystr) : pystr := sub_from (S (length s)) 0 r repl.

End Matcher.

(** Python slicing on a whole string. *)
Definition py_slice (s : pystr) (i j : nat) : pystr := firstn (j - i) (skipn i s).

(** Replacement templates of [re.sub] ([sre_parse.parse_template]): [\\] and
    the C escapes become one character, a backslash before any other ASCII
    letter is a "bad escape" error, a backslash before any other character is
    kept with it, a trailing backslash is an error.  Group references
    ([\g<..>], [\0], [\1], ...) do not occur in this program's templates and
    are rejected by the model. *)
Definition template_escape (c : N) : option N :=
  if (c =? 97)%N then Some 7%N          (* \a *)
  else if (c =? 98)%N then Some 8%N     (* \b *)
  else if (c =? 102)%N then Some 12%N   (* \f *)
  else if (c =? 110)%N then Some 10%N   (* \n *)
  else if (c =? 114)%N then Some 13%N   (* \r *)
  else if (c =? 116)%N then Some 9%N    (* \t *)
  else if (c =? 118)%N then Some 11%N   (* \v *)
  else if (c =? 92)%N then Some 92%N    (* \\ *)
  else None.

Fixpoint parse_template (t : pystr) : result pystr :=
  match t with
  | [] => Ok []
  | c :: rest =>
      if (c =? 92)%N then
        match rest with
        | [] => Raise (ReError (py "bad escape (end of pattern)"))
        | e :: rest' =>
            if (e =? 103)%N || is_ascii_digit e then
              Raise (ReError (py "group reference (outside this model)"))
            else
              match template_escape e with
              | Some x => t' <- parse_template rest' ;; Ok (x :: t')
              | None =>
                  if is_ascii_upper e || is_ascii_lower e then
                    Raise (ReError (py "bad escape \" ++ [e]))
                  else t' <- parse_template rest' ;; Ok (c :: e :: t')
              end
        end
      else t' <- parse_template rest ;; Ok (c :: t')
  end.

(** [re.sub(pattern, template, s)]: the template is compiled before any
    matching takes place. *)
Definition re_sub (db : unicode_db) (r : regex) (template s : pystr) : result pystr :=
  repl <- parse_template template ;; Ok (sub_literal db s r repl).

(** [s.split(sep)] for a one-character separator. *)
Fixpoint py_split (s : pystr) (sep : N) : list pystr :=
  match s with
  | [] => [[]]
  | c :: s' =>
      if (c =? sep)%N then [] :: py_split s' sep
      else match py_split s' sep with
           | [] => [[c]]
           | l :: ls => (c :: l) :: ls
           end
  end.

(* ================================================================== *)
(** ** detection_engine.py *)

Module Detection.

Inductive CardType := VISA | MASTERCARD | AMEX | DISCOVER | DINERS | JCB | UNKNOWN.

Definition card_value (c : CardType) : pystr :=
  match c with
  | VISA => py "visa" | MASTERCARD => py "mastercard" | AMEX => py "amex"
  | DISCOVER => py "discover" | DINERS => py "diners" | JCB => py "jcb"
  | UNKNOWN => py "unknown"
  end.

Record PANMatch := {
  file_path : pystr;
  line_number : nat;
  column_start : nat;
  column_end : nat;
  raw_match : pystr;
  masked_match : pystr;
  card_type : CardType;
  luhn_valid : bool;
  confidence_score : Q;
  context_before : pystr;
  context_after : pystr;
  is_masked : bool
}.

(** The configuration entries read by the program, with the defaults of the
    [config.get(..., default)] calls applied. *)
Record config := {
  require_luhn_validation : bool;      (* detection, default True *)
  minimum_confidence_score : Q;        (* detection, default 0.7 *)
  context_window_chars : nat;          (* detection, default 100 *)
  exclude_masked_patterns : bool;      (* detection, default True *)
  show_last4_only : bool;              (* privacy, default True *)
  allow_full_pan_retention : bool;     (* privacy, default False *)
  redact_pan : bool;                   (* privacy, default True *)
  max_files_per_scan : nat;            (* agent, default 10000; 0 = unlimited *)
  concurrency : nat                    (* agent, default 4 *)
}.

Definition default_config : config := {|
  require_luhn_validation := true; minimum_confidence_score := 7 # 10;
  context_window_chars := 100; exclude_masked_patterns := true;
  show_last4_only := true; allow_full_pan_retention := false; redact_pan := true;
  max_files_per_scan := 10000; concurrency := 4 |}.

Definition star : N := 42%N.
Definition cX : N := 88%N.
Definition hash_c : N := 35%N.

(** [PANDetector.mask_pan] *)
Definition mask_pan (pan : pystr) (show_last4 : bool) : pystr :=
  if length pan <? 4 then repeat star (length pan)
  else if show_last4 then repeat star (length pan - 4) ++ skipn (length pan - 4) pan
  else repeat star (length pan).

Section WithDb.
Variable db : unicode_db.

(** [CARD_PATTERNS], each compiled as [r'\b' + pattern + r'\b']. *)
Definition d09 := rd09.
Definition dd := rdig db.

Definition visa_re : regex :=   (* \b4[0-9]{12}(?:[0-9]{3})?\b *)
  RSeq RWordB (RSeq (rchar 52) (RSeq (rrep 12 d09) (RSeq (ropt (rrep 3 d09)) RWordB))).

(** [\b5[1-5][0-9]{14}|2(?:2(?:2[1-9]|[3-9][0-9])|[3-6][0-9][0-9]|7(?:[0-1][0-9]|20))[0-9]{12}\b]:
    the alternation binds loosest, so the first [\b] belongs to the first
    branch and the last [\b] to the second. *)
Definition mastercard_re : regex :=
  RAlt (RSeq RWordB (RSeq (rchar 53) (RSeq (rrange 49 53) (rrep 14 d09))))
       (RSeq (rchar 50)
          (RSeq (RAlt (RSeq (rchar 50)
                         (RAlt (RSeq (rchar 50) (rrange 49 57))
                               (RSeq (rrange 51 57) d09)))
                 (RAlt (RSeq (rrange 51 54) (RSeq d09 d09))
                       (RSeq (rchar 55)
                          (RAlt (RSeq (rrange 48 49) d09) (rlit (py "20"))))))
             (RSeq (rrep 12 d09) RWordB))).

Definition amex_re : regex :=   (* \b3[47][0-9]{13}\b *)
  RSeq RWordB (RSeq (rchar 51) (RSeq (RClass (fun c => (c =? 52) || (c =? 55))%N)
                                     (RSeq (rrep 13 d09) RWordB))).

Definition discover_re : regex :=   (* \b6(?:011|5[0-9]{2})[0-9]{12}\b *)
  RSeq RWordB (RSeq (rchar 54)
    (RSeq (RAlt (rlit (py "011")) (RSeq (rchar 53) (rrep 2 d09)))
          (RSeq (rrep 12 d09) RWordB))).

Definition diners_re : regex :=   (* \b3(?:0[0-5]|[68][0-9])[0-9]{11}\b *)
  RSeq RWordB (RSeq (rchar 51)
    (RSeq (RAlt (RSeq (rchar 48) (rrange 48 53))
                (RSeq (RClass (fun c => (c =? 54) || (c =? 56))%N) d09))
          (RSeq (rrep 11 d09) RWordB))).

Definition jcb_re : regex :=   (* \b(?:2131|1800|35\d{3})\d{11}\b *)
  RSeq RWordB
    (RSeq (RAlt (rlit (py "2131")) (RAlt (rlit (py "1800")) (RSeq (rlit (py "35")) (rrep 3 dd))))
          (RSeq (rrep 11 dd) RWordB)).

(** [compiled_patterns.items()], in dict order. *)
Definition compiled_patterns : list (CardType * regex) :=
  [(VISA, visa_re); (MASTERCARD, mastercard_re); (AMEX, amex_re);
   (DISCOVER, discover_re); (DINERS, diners_re); (JCB, jcb_re)].


(** [MASKED_PATTERNS] *)
Definition masked_regex : list regex :=
  [ ratleast 4 (rchar star);                                   (* \*{4,} *)
    ratleast 4 (rchar cX);                                     (* X{4,} *)
    ratleast 4 (rchar hash_c);                                 (* #{4,} *)
    RSeq (rplus (rchar star)) (rrep 4 dd);                     (* \*+\d{4} *)
    RSeq (rplus (rchar cX)) (rrep 4 dd);                       (* X+\d{4} *)
    RSeq (rplus (rchar hash_c)) (rrep 4 dd);                   (* #+\d{4} *)
    RSeq (rrep 4 dd)
         (ratleast 4 (RClass (fun c => (c =? star) || (c =? cX) || (c =? hash_c))%N));
                                                               (* \d{4}[\*X#]{4,} *)
    RSeq (rrep 4 dd) (RSeq (rchar 45) (RSeq (rrep 4 (rchar star))
      (RSeq (rchar 45) (RSeq (rrep 4 (rchar star)) (RSeq (rchar 45) (rrep 4 dd))))))
                                                               (* \d{4}-\*{4}-\*{4}-\d{4} *)
  ].

(** [int(d)] on one character. *)
Definition py_int_char (d : N) : result nat :=
  match u_decimal db d with Some v => Ok v | None => Raise ValueError end.

Fixpoint luhn_sum (parity i : nat) (digits : list nat) : nat :=
  match digits with
  | [] => 0
  | digit :: rest =>
      let digit' :=
        if i mod 2 =? parity then
          let d2 := digit * 2 in if 9 <? d2 then d2 - 9 else d2
        else digit in
      digit' + luhn_sum parity (S i) rest
  end.

(** [PANDetector.luhn_check] *)
Definition luhn_check (card_number : pystr) : result bool :=
  digits <- mapR py_int_char (filter (u_isdigit db) card_number) ;;
  if (length digits <? 13) || (19 <? length digits) then Ok false
  else
    let parity := length digits mod 2 in
    Ok (luhn_sum parity 0 digits mod 10 =? 0).

(** [PANDetector.is_masked_number] *)
Definition is_masked_number (cfg : config) (text : pystr) : bool :=
  if negb (exclude_masked_patterns cfg) then false
  else existsb (re_search db text) masked_regex.

(** Python's [min(a, b)] and [max(a, b)] on floats. *)
Definition qmin (a b : Q) : Q := if negb (Qle_bool a b) then b else a.
Definition qmax (a b : Q) : Q := if negb (Qle_bool b a) then b else a.
Definition qlt (a b : Q) : bool := negb (Qle_bool b a).

Definition payment_keywords : list pystr :=
  map py ["card"; "credit"; "debit"; "payment"; "visa"; "mastercard"; "amex";
          "discover"; "pan"; "account"; "number"; "cvv"; "expiry"; "expire"]%string.

(** [PANDetector.calculate_confidence] (the matched text is not used). *)
Definition calculate_confidence (card_type : CardType) (luhn_valid : bool)
    (context : pystr) (is_masked : bool) : Q :=
  let c0 := 3 # 10 in
  let c1 := if luhn_valid then (c0 + (4 # 10))%Q else c0 in
  let context_lower := u_lower db context in
  let keyword_matches :=
    length (filter (fun kw => is_infix kw context_lower) payment_keywords) in
  let c2 := (c1 + qmin (inject_Z (Z.of_nat keyword_matches) * (5 # 100)) (2 # 10))%Q in
  let c3 := if is_masked then (c2 - (2 # 10))%Q else c2 in
  let c4 := match card_type with
            | VISA | MASTERCARD | AMEX => (c3 + (1 # 10))%Q
            | _ => c3
            end in
  qmin (qmax c4 0%Q) 1%Q.

(** [PANDetector.detect_card_type]: [pattern.match] anchors the match at
    the start of [digits_only]; the first pattern in dict order wins. *)
Definition detect_card_type (pan : pystr) : CardType :=
  let digits_only := filter (re_digit db) pan in                 (* re.sub(r'\D', '', pan) *)
  match find (fun '(_, pattern) =>
                match match_at db digits_only pattern 0 with Some _ => true | None => false end)
             compiled_patterns with
  | Some (card_type, _) => card_type
  | None => UNKNOWN
  end.

(** One iteration of the inner loop of [PANDetector.scan_text], for the
    candidate at [span]; [None] is a [continue]. *)
Definition scan_candidate (cfg : config) (file_path : pystr) (line_num : nat)
    (line : pystr) (card_type : CardType) (span : nat * nat) : result (option PANMatch) :=
  let '(mstart, mend) := span in
  let pan_candidate := py_slice line mstart mend in
  let digits_only := filter (re_digit db) pan_candidate in        (* re.sub(r'\D', '', ...) *)
  if (length digits_only <? 13) || (19 <? length digits_only) then Ok None
  else
    luhn_valid <- luhn_check digits_only ;;
    if require_luhn_validation cfg && negb luhn_valid then Ok None
    else
      let start_pos := mstart - context_window_chars cfg in          (* max(0, ...) *)
      let end_pos := Nat.min (length line) (mend + context_window_chars cfg) in
      let context_before := py_slice line start_pos mstart in
      let context_after := py_slice line mend end_pos in
      let full_context := context_before ++ pan_candidate ++ context_after in
      let masked := is_masked_number cfg full_context in
      let confidence := calculate_confidence card_type luhn_valid full_context masked in
      if qlt confidence (minimum_confidence_score cfg) then Ok None
      else
        let masked_pan := mask_pan digits_only (show_last4_only cfg) in
        Ok (Some {|
          file_path := file_path;
          line_number := line_num;
          column_start := mstart;
          column_end := mend;
          raw_match := if allow_full_pan_retention cfg then pan_candidate else [];
          masked_match := masked_pan;
          card_type := card_type;
          luhn_valid := luhn_valid;
          confidence_score := confidence;
          context_before := if 50 <? length context_before
                            then skipn (length context_before - 50) context_before
                            else context_before;
          context_after := if 50 <? length context_after
                           then firstn 50 context_after else context_after;
          is_masked := masked |}).

Definition option_list {A} (o : option A) : list A :=
  match o with Some a => [a] | None => [] end.

(** The body of the loop over the lines of [PANDetector.scan_text]. *)
Definition scan_line (cfg : config) (file_path : pystr) (line_num : nat) (line : pystr)
    : result (list PANMatch) :=
  if is_masked_number cfg line then Ok []
  else
    per_type <- mapR (fun '(ct, pattern) =>
                  found <- mapR (scan_candidate cfg file_path line_num line ct)
                                (finditer db line pattern) ;;
                  Ok (flat_map option_list found))
                compiled_patterns ;;
    Ok (concat per_type).

Fixpoint scan_lines (cfg : config) (file_path : pystr) (line_num : nat) (lines : list pystr)
    : result (list PANMatch) :=
  match lines with
  | [] => Ok []
  | line :: rest =>
      here <- scan_line cfg file_path line_num line ;;
      later <- scan_lines cfg file_path (S line_num) rest ;;
      Ok (here ++ later)
  end.

(** [PANDetector.scan_text] *)
Definition scan_text (cfg : config) (text file_path : pystr) : result (list PANMatch) :=
  scan_lines cfg file_path 1 (py_split text 10%N).

End WithDb.

End Detection.

(* ================================================================== *)
(** ** JSON values and [json.dumps] *)

Module Json.

(** The JSON-serialisable Python values: [None], [bool], [int], [float],
    [str], [list] and [dict] with string keys in insertion order. *)
Inductive json :=
| JNull
| JBool (b : bool)
| JInt (z : Z)
| JFloat (q : Q)
| JStr (s : pystr)
| JList (l : list json)
| JObj (kvs : list (pystr * json)).

(** [d[k]] for a string key. *)
Definition getitem (d : json) (k : pystr) : result json :=
  match d with
  | JObj kvs =>
      match find (fun kv => pystr_eqb (fst kv) k) kvs with
      | Some (_, v) => Ok v
      | None => Raise KeyError
      end
  | _ => Raise TypeError
  end.

(** [d.get(k, default)] *)
Definition get (d : json) (k : pystr) (default : json) : result json :=
  match d with
  | JObj kvs =>
      match find (fun kv => pystr_eqb (fst kv) k) kvs with
      | Some (_, v) => Ok v
      | None => Ok default
      end
  | _ => Raise AttributeError
  end.

(** [d[k] = v] on a dict: an existing key keeps its place, a new key goes
    last. *)
Fixpoint set_kvs (kvs : list (pystr * json)) (k : pystr) (v : json) : list (pystr * json) :=
  match kvs with
  | [] => [(k, v)]
  | (k', v') :: rest =>
      if pystr_eqb k' k then (k', v) :: rest else (k', v') :: set_kvs rest k v
  end.

(** [d.get(k, default)] on a dict. *)
Definition kv_get (kvs : list (pystr * json)) (k : pystr) (default : json) : json :=
  match find (fun kv => pystr_eqb (fst kv) k) kvs with
  | Some (_, v) => v
  | None => default
  end.

(** [k in x] for a string [k]. *)
Definition contains (x : json) (k : pystr) : result bool :=
  match x with
  | JObj kvs => Ok (existsb (fun kv => pystr_eqb (fst kv) k) kvs)
  | JList l => Ok (existsb (fun v => match v with JStr s => pystr_eqb s k | _ => false end) l)
  | JStr s => Ok (is_infix k s)
  | _ => Raise TypeError
  end.

(** Python truthiness. *)
Definition truthy (x : json) : bool :=
  match x with
  | JNull => false
  | JBool b => b
  | JInt z => negb (z =? 0)%Z
  | JFloat q => negb (Qeq_bool q 0)
  | JStr s => match s with [] => false | _ => true end
  | JList l => match l with [] => false | _ => true end
  | JObj kvs => match kvs with [] => false | _ => true end
  end.

(** Decimal rendering of integers ([repr(int)]). *)
Fixpoint N_digits (fuel : nat) (n : N) (acc : pystr) : pystr :=
  match fuel with
  | 0 => acc
  | S f =>
      let acc' := (48 + n mod 10)%N :: acc in
      if (n <? 10)%N then acc' else N_digits f (n / 10)%N acc'
  end.
Definition N_repr (n : N) : pystr := N_digits (S (N.size_nat n)) n [].
Definition Z_repr (z : Z) : pystr :=
  match z with
  | Z.neg p => 45%N :: N_repr (Npos p)
  | _ => N_repr (Z.to_N z)
  end.

Definition hex_digit (n : N) : N := if (n <? 10)%N then (48 + n)%N else (87 + n)%N.
Definition hex4 (n : N) : pystr :=
  map (fun sh => hex_digit (N.land (N.shiftr n sh) 15)) [12; 8; 4; 0]%N.

(** One character of a string literal under [ensure_ascii=True]. *)
Definition escape_char (c : N) : pystr :=
  if (c =? 34)%N then [92; 34]%N
  else if (c =? 92)%N then [92; 92]%N
  else if (c =? 10)%N then [92; 110]%N
  else if (c =? 13)%N then [92; 114]%N
  else if (c =? 9)%N then [92; 116]%N
  else if (c =? 8)%N then [92; 98]%N
  else if (c =? 12)%N then [92; 102]%N
  else if ((32 <=? c) && (c <=? 126))%N then [c]
  else if (c <? 65536)%N then 92%N :: 117%N :: hex4 c
  else
    let v := (c - 65536)%N in
    (92%N :: 117%N :: hex4 (N.lor 55296 (N.shiftr v 10)))
      ++ (92%N :: 117%N :: hex4 (N.lor 56320 (N.land v 1023))).

Definition dump_str (s : pystr) : pystr := 34%N :: flat_map escape_char s ++ [34%N].

Fixpoint join (sep : pystr) (l : list pystr) : pystr :=
  match l with
  | [] => []
  | [x] => x
  | x :: rest => x ++ sep ++ join sep rest
  end.

(** Code-point order of Python strings. *)
Fixpoint pystr_ltb (a b : pystr) : bool :=
  match a, b with
  | _, [] => false
  | [], _ :: _ => true
  | x :: a', y :: b' => if (x <? y)%N then true else if (y <? x)%N then false else pystr_ltb a' b'
  end.

Fixpoint insert_by_key {A} (kv : pystr * A) (l : list (pystr * A)) : list (pystr * A) :=
  match l with
  | [] => [kv]
  | kv' :: rest => if pystr_ltb (fst kv') (fst kv) then kv' :: insert_by_key kv rest else kv :: l
  end.
Definition sort_by_key {A} (l : list (pystr * A)) : list (pystr * A) :=
  fold_right insert_by_key [] l.

Section Dumps.
(** [repr(float)]: the shortest decimal that rounds to the float. *)
Variable float_repr : Q -> pystr.
Variable sort_keys : bool.

(** [json.dumps(obj, sort_keys=sort_keys, default=str)] with the default
    separators [", "] and [": "]; the values of [json] are all serialisable,
    so [default] is never called. *)
Fixpoint dumps (j : json) : pystr :=
  match j with
  | JNull => py "null"
  | JBool true => py "true"
  | JBool false => py "false"
  | JInt z => Z_repr z
  | JFloat q => float_repr q
  | JStr s => dump_str s
  | JList l => [91%N] ++ join (py ", ") (map dumps l) ++ [93%N]
  | JObj kvs =>
      let items := map (fun kv => (fst kv, dumps (snd kv))) kvs in
      let items := if sort_keys then sort_by_key items else items in
      [123%N] ++ join (py ", ") (map (fun kv => dump_str (fst kv) ++ py ": " ++ snd kv) items)
        ++ [125%N]
  end.
End Dumps.

End Json.

(* ================================================================== *)
(** ** The user-home substitutions of [_sanitize_file_path] *)

Definition users_slash_re : regex :=          (* /Users/[^/]+/ *)
  RSeq (rlit (py "/Users/")) (RSeq (rplus (RClass (fun c => negb (c =? 47)%N))) (rchar 47)).
Definition users_bslash_re : regex :=         (* \\Users\\[^\\]+\\ *)
  RSeq (rlit (py "\Users\")) (RSeq (rplus (RClass (fun c => negb (c =? 92)%N))) (rchar 92)).
Definition c_users_bslash_re : regex :=       (* C:\\Users\\[^\\]+\\ *)
  RSeq (rlit (py "C:\Users\")) (RSeq (rplus (RClass (fun c => negb (c =? 92)%N))) (rchar 92)).

(* ================================================================== *)
(** ** report_generator.py *)

Module Report.
Import Detection Json.

Definition email_re : regex :=   (* \b[A-Za-z0-9._%+-]+@[A-Za-z0-9.-]+\.[A-Z|a-z]{2,}\b *)
  let alnum c := (is_ascii_upper c || is_ascii_lower c || is_ascii_digit c)%N in
  RSeq RWordB
    (RSeq (rplus (RClass (fun c => alnum c || (c =? 46)%N || (c =? 95)%N || (c =? 37)%N
                                   || (c =? 43)%N || (c =? 45)%N)))
    (RSeq (rchar 64)
    (RSeq (rplus (RClass (fun c => alnum c || (c =? 46)%N || (c =? 45)%N)))
    (RSeq (rchar 46)
    (RSeq (ratleast 2 (RClass (fun c => is_ascii_upper c || (c =? 124)%N || is_ascii_lower c)))
          RWordB))))).

Section WithDb.
Variable db : unicode_db.
(** [hashlib.sha256(s.encode()).hexdigest()] *)
Variable sha256_hex : pystr -> pystr.

Definition ssn_re : regex :=     (* \b\d{3}-\d{2}-\d{4}\b *)
  RSeq RWordB (RSeq (rrep 3 (rdig db)) (RSeq (rchar 45) (RSeq (rrep 2 (rdig db))
    (RSeq (rchar 45) (RSeq (rrep 4 (rdig db)) RWordB))))).

(** [ReportGenerator._sanitize_file_path] *)
Definition sanitize_file_path (file_path : pystr) : result pystr :=
  s1 <- re_sub db users_slash_re (py "/Users/<user>/") file_path ;;
  s2 <- re_sub db users_bslash_re (py "\\Users\\<user>\\") s1 ;;
  re_sub db c_users_bslash_re (py "C:\\Users\\<user>\\") s2.

(** [ReportGenerator._sanitize_context] *)
Definition sanitize_context (context : pystr) : result pystr :=
  match context with
  | [] => Ok []
  | _ =>
      s1 <- re_sub db email_re (py "<email>") context ;;
      s2 <- re_sub db ssn_re (py "<ssn>") s1 ;;
      Ok (if 200 <? length s2 then firstn 200 s2 ++ py "..." else s2)
  end.

(** [round(x, 3)]: to the nearest multiple of 1/1000, ties to even. *)
Definition py_round3 (x : Q) : Q :=
  let y := (x * 1000)%Q in
  let f := Qfloor y in
  let r := (y - inject_Z f)%Q in
  let n := if qlt r (1 # 2) then f
           else if qlt (1 # 2) r then (f + 1)%Z
           else if Z.even f then f else (f + 1)%Z in
  (n # 1000)%Q.

Definition is_major (ct : CardType) : bool :=
  match ct with VISA | MASTERCARD | AMEX => true | _ => false end.

(** [ReportGenerator._calculate_priority] *)
Definition calculate_priority (m : PANMatch) : pystr :=
  let score := (if luhn_valid m then 3 else 0) + (if negb (is_masked m) then 2 else 0)
             + (if qlt (8 # 10) (confidence_score m) then 2 else 0)
             + (if is_major (card_type m) then 1 else 0) in
  if 5 <=? score then py "critical"
  else if 3 <=? score then py "high"
  else if 1 <=? score then py "medium"
  else py "low".

(** [ReportGenerator._get_remediation_suggestions] *)
Definition remediation_suggestions (m : PANMatch) : list pystr :=
  (if negb (is_masked m) && luhn_valid m
   then [py "URGENT: Unmasked valid PAN detected - secure immediately"] else [])
  ++ (if luhn_valid m
      then map py ["Implement PAN masking or tokenization"; "Review data retention policies";
                   "Ensure PCI-DSS compliance for data handling"]%string else [])
  ++ (if qlt (7 # 10) (confidence_score m)
      then [py "High confidence match - verify and remediate"] else [])
  ++ map py ["Consider data encryption at rest"; "Implement access controls and audit logging"]%string.

(** The [pan_data] object of a finding. *)
Definition pan_data (cfg : config) (m : PANMatch) : json :=
  let hash := match raw_match m with [] => JNull | raw => JStr (sha256_hex raw) end in
  if allow_full_pan_retention cfg && negb (redact_pan cfg) then
    JObj [(py "full_number", JStr (raw_match m));
          (py "masked_number", JStr (masked_match m));
          (py "hash", hash)]
  else
    JObj [(py "masked_number", JStr (masked_match m));
          (py "hash", hash)].

(** The body of the loop of [ReportGenerator._process_findings]. *)
Definition process_finding (cfg : config) (m : PANMatch) : result json :=
  fp <- sanitize_file_path (file_path m) ;;
  before <- sanitize_context (context_before m) ;;
  after <- sanitize_context (context_after m) ;;
  Ok (JObj [(py "file_path", JStr fp);
            (py "line_number", JInt (Z.of_nat (line_number m)));
            (py "column_range", JList [JInt (Z.of_nat (column_start m));
                                       JInt (Z.of_nat (column_end m))]);
            (py "card_type", JStr (card_value (card_type m)));
            (py "luhn_valid", JBool (luhn_valid m));
            (py "confidence_score", JFloat (py_round3 (confidence_score m)));
            (py "is_masked", JBool (is_masked m));
            (py "context", JObj [(py "before", JStr before); (py "after", JStr after)]);
            (py "remediation_priority", JStr (calculate_priority m));
            (py "remediation_suggestions", JList (map JStr (remediation_suggestions m)));
            (py "pan_data", pan_data cfg m)]).

(** [ReportGenerator._process_findings] *)
Definition process_findings (cfg : config) (matches : list PANMatch) : result (list json) :=
  mapR (process_finding cfg) matches.

(** [ReportGenerator._categorize_findings] *)
Definition count_by_card_type (matches : list PANMatch) : list (pystr * json) :=
  fold_left (fun acc m =>
               let k := card_value (card_type m) in
               let n := match kv_get acc k (JInt 0) with JInt z => z | _ => 0%Z end in
               set_kvs acc k (JInt (n + 1)))
            matches [].

Definition count (p : PANMatch -> bool) (matches : list PANMatch) : json :=
  JInt (Z.of_nat (length (filter p matches))).

Definition categorize_findings (matches : list PANMatch) : json :=
  JObj [(py "by_card_type", JObj (count_by_card_type matches));
        (py "by_validation_status",
           JObj [(py "luhn_valid", count luhn_valid matches);
                 (py "luhn_invalid", count (fun m => negb (luhn_valid m)) matches)]);
        (py "by_confidence",
           JObj [(py "high", count (fun m => qlt (8 # 10) (confidence_score m)) matches);
                 (py "medium", count (fun m => negb (qlt (8 # 10) (confidence_score m))
                                               && qlt (5 # 10) (confidence_score m)) matches);
                 (py "low", count (fun m => negb (qlt (5 # 10) (confidence_score m))) matches)]);
        (py "by_masking_status",
           JObj [(py "masked", count is_masked matches);
                 (py "unmasked", count (fun m => negb (is_masked m)) matches)])].

(** [ReportGenerator._assess_risk] *)
Definition assess_risk (matches : list PANMatch) : json :=
  match matches with
  | [] => JObj [(py "overall_risk", JStr (py "low")); (py "risk_factors", JList []);
                (py "compliance_status", JStr (py "compliant"))]
  | _ =>
      let high := filter (fun m => luhn_valid m && negb (is_masked m)) matches in
      let risk_factors := map (fun m => py "Unmasked valid PAN in " ++ file_path m) high in
      let '(overall, status) :=
        if 0 <? length high then (py "critical", py "non-compliant")
        else if 10 <? length matches then (py "high", py "review-required")
        else if 0 <? length matches then (py "medium", py "review-required")
        else (py "low", py "compliant") in
      JObj [(py "overall_risk", JStr overall);
            (py "risk_factors", JList (map JStr (firstn 10 risk_factors)));
            (py "compliance_status", JStr status);
            (py "total_high_risk_findings", JInt (Z.of_nat (length high)))]
  end.

(** [ReportGenerator._generate_recommendations] *)
Definition generate_recommendations (matches : list PANMatch) : list pystr :=
  (if existsb (fun m => negb (is_masked m) && luhn_valid m) matches
   then map py ["CRITICAL: Secure unmasked PANs immediately";
                "Implement PAN masking/tokenization solution"]%string else [])
  ++ map py ["Implement regular PCI compliance scanning";
             "Establish data retention and disposal policies";
             "Implement strong access controls and authentication";
             "Enable comprehensive audit logging"]%string
  ++ (if 5 <? length matches
      then [py "Consider automated PAN discovery and classification"] else []).

(** [report["metadata"]["report_hash"] = h] *)
Definition set_report_hash (report : json) (h : pystr) : result json :=
  md <- getitem report (py "metadata") ;;
  match report, md with
  | JObj kvs, JObj m =>
      Ok (JObj (set_kvs kvs (py "metadata") (JObj (set_kvs m (py "report_hash") (JStr h)))))
  | _, _ => Raise TypeError
  end.

(** [report["metadata"]["report_hash"]] *)
Definition report_hash_field (report : json) : result json :=
  md <- getitem report (py "metadata") ;; getitem md (py "report_hash").

Variable float_repr : Q -> pystr.

(** [ReportGenerator.create_report]; [timestamp] is
    [datetime.now(timezone.utc).isoformat()]. *)
Definition create_report (cfg : config) (agent_id scan_id operator : pystr)
    (matches : list PANMatch) (scan_stats config_summary : list (pystr * json))
    (timestamp : pystr) : result json :=
  findings <- process_findings cfg matches ;;
  let cs k d := kv_get config_summary (py k) d in
  let st k d := kv_get scan_stats (py k) d in
  let report :=
    JObj [(py "metadata",
            JObj [(py "report_version", JStr (py "1.0"));
                  (py "agent_id", JStr agent_id);
                  (py "scan_id", JStr scan_id);
                  (py "timestamp", JStr timestamp);
                  (py "operator", JStr operator);
                  (py "report_hash", JStr [])]);
          (py "scan_parameters",
            JObj [(py "directories_scanned", cs "scan_directories"%string (JInt 0));
                  (py "exclude_patterns_count", cs "exclude_patterns"%string (JInt 0));
                  (py "detect_plain_pan_enabled", cs "detect_plain_pan"%string (JBool false));
                  (py "action_policy", cs "action_policy"%string (JStr (py "report_only")));
                  (py "max_file_size_mb", cs "max_file_size_mb"%string (JInt 10));
                  (py "concurrency", cs "concurrency"%string (JInt 4));
                  (py "privacy_settings",
                     JObj [(py "redact_pan", cs "privacy_redact_pan"%string (JBool true));
                           (py "show_last4_only", cs "privacy_show_last4_only"%string (JBool true))])]);
          (py "scan_results",
            JObj [(py "summary",
                     JObj [(py "total_files_scanned", st "files_scanned"%string (JInt 0));
                           (py "total_files_skipped", st "files_skipped"%string (JInt 0));
                           (py "total_directories_scanned", st "directories_scanned"%string (JInt 0));
                           (py "total_matches_found", JInt (Z.of_nat (length matches)));
                           (py "errors_encountered", st "errors"%string (JInt 0));
                           (py "scan_duration_seconds", st "duration_seconds"%string (JInt 0))]);
                  (py "findings_by_type", categorize_findings matches);
                  (py "findings", JList findings);
                  (py "risk_assessment", assess_risk matches)]);
          (py "compliance_notes",
            JObj [(py "data_handling",
                     JStr (py "This report follows PCI-DSS data minimization principles"));
                  (py "retention_policy",
                     JStr (py "Sensitive data is masked unless explicitly authorized"));
                  (py "audit_trail", JStr (py "Full audit log available for scan " ++ scan_id));
                  (py "recommendations", JList (map JStr (generate_recommendations matches)))])]
  in
  let report_json := dumps float_repr true report in
  set_report_hash report (sha256_hex report_json).

End WithDb.
End Report.

(* ================================================================== *)
(** ** secure_client.py *)

Module Client.
Import Json.

(** [str.replace(old, new)] for a one-character [old]. *)
Definition replace_char (c : N) (by_ : pystr) (s : pystr) : pystr :=
  flat_map (fun x => if (x =? c)%N then by_ else [x]) s.

(** The [reporting] section of the configuration. *)
Record client_config := {
  server_url : option pystr;    (* reporting.server_url, default None *)
  max_retries : nat             (* reporting.max_retries, default 3 *)
}.

(** What one [session.post] call produces: a status code with its decoded
    body ([response.json() if response.content else {}]), or an exception
    of [requests]. *)
Inductive http_outcome :=
| HttpResponse (status : nat) (body : json)
| HttpException.

(** The retry loop of [SecureClient._make_request] for a POST of [data]:
    the payloads handed to [session.post] and the returned value.
    [server attempt] is the outcome of the attempt numbered [attempt];
    sleeping and rate limiting only delay. *)
Fixpoint post_attempts (server : nat -> http_outcome) (retries attempt fuel : nat)
    (data : json) : list json * option json :=
  match fuel with
  | 0 => ([], None)
  | S f =>
      let again := post_attempts server retries (S attempt) f data in
      match server attempt with
      | HttpResponse status body =>
          if (status =? 200) || (status =? 201) then ([data], Some body)
          else if (status =? 401) || (status =? 403) then ([data], None)
          else if status =? 429 then (data :: fst again, snd again)
          else if attempt <? retries then (data :: fst again, snd again)
          else ([data], None)
      | HttpException =>
          if attempt =? retries then ([data], None)
          else (data :: fst again, snd again)
      end
  end.

(** [SecureClient._make_request('POST', endpoint, data)] *)
Definition make_post (cc : client_config) (server : nat -> http_outcome) (data : json)
    : list json * option json :=
  match server_url cc with
  | None => ([], None)
  | Some _ => post_attempts server (max_retries cc) 0 (S (max_retries cc)) data
  end.

Definition pan_re : regex := RSeq RWordB (RSeq (rbetween 13 19 rd09) RWordB).  (* \b[0-9]{13,19}\b *)

(** The Luhn sum of [_contains_sensitive_data] over a run of [0-9]. *)
Definition run_luhn_ok (pan : pystr) : bool :=
  let digits := map (fun d => N.to_nat (d - 48)) pan in
  Detection.luhn_sum (length digits mod 2) 0 digits mod 10 =? 0.

Definition flagged_run (pan : pystr) : bool :=
  (13 <=? length pan)
  && negb (is_prefix (py "202") pan || is_prefix (py "201") pan)
  && run_luhn_ok pan.

Section WithDb.
Variable db : unicode_db.
Variable float_repr : Q -> pystr.
(** [datetime.fromisoformat(t).strftime('%Y-%m-%d')]; [None] when it raises. *)
Variable iso_to_date : pystr -> option pystr.

(** [SecureClient._contains_sensitive_data] *)
Definition contains_sensitive_data (report : json) : bool :=
  let report_str := u_lower db (dumps float_repr false report) in
  existsb flagged_run (findall db report_str pan_re).

Fixpoint all_in (x : json) (fields : list pystr) : result bool :=
  match fields with
  | [] => Ok true
  | f :: rest => b <- contains x f ;; if b then all_in x rest else Ok false
  end.

(** [SecureClient._validate_report] *)
Definition validate_report (report : json) : result bool :=
  ok1 <- all_in report (map py ["metadata"; "scan_parameters"; "scan_results";
                                "compliance_notes"]%string) ;;
  if negb ok1 then Ok false
  else
    metadata <- get report (py "metadata") (JObj []) ;;
    ok2 <- all_in metadata (map py ["agent_id"; "scan_id"; "timestamp"; "operator"]%string) ;;
    if negb ok2 then Ok false
    else Ok (negb (contains_sensitive_data report)).

(** [SecureClient._transform_report_for_server] *)
Definition transform_report (report : json) : result json :=
  metadata <- get report (py "metadata") (JObj []) ;;
  scan_params <- get report (py "scan_parameters") (JObj []) ;;
  scan_results <- get report (py "scan_results") (JObj []) ;;
  summary <- get scan_results (py "summary") (JObj []) ;;
  timestamp <- get metadata (py "timestamp") (JStr []) ;;
  has_t <- (if truthy timestamp then contains timestamp (py "T") else Ok false) ;;
  scan_date <-
    (if has_t then
       match timestamp with
       | JStr t =>
           match iso_to_date (replace_char 90 (py "+00:00") t) with
           | Some d => Ok (JStr d)
           | None => Ok (JStr (hd [] (py_split t 84)))
           end
       | _ => Raise AttributeError
       end
     else Ok timestamp) ;;
  dirs_count <- get scan_params (py "directories_scanned") (JInt 0) ;;
  default_dirs <-
    (match dirs_count with
     | JInt z => Ok (Z.to_nat z)
     | JBool b => Ok (if b then 1 else 0)
     | _ => Raise TypeError
     end) ;;
  directories_scanned <-
    get report (py "actual_directories")
      (JList (map (fun i => JStr (py "directory_" ++ N_repr (N.of_nat (S i)))) (seq 0 default_dirs))) ;;
  agent_id <- get metadata (py "agent_id") (JStr []) ;;
  operator <- get metadata (py "operator") (JStr []) ;;
  total_files <- get summary (py "total_files_scanned") (JInt 0) ;;
  findings <- get scan_results (py "findings") (JList []) ;;
  epc <- get scan_params (py "exclude_patterns_count") (JInt 0) ;;
  dpp <- get scan_params (py "detect_plain_pan_enabled") (JBool false) ;;
  ap <- get scan_params (py "action_policy") (JStr (py "report_only")) ;;
  mfs <- get scan_params (py "max_file_size_mb") (JInt 10) ;;
  conc <- get scan_params (py "concurrency") (JInt 4) ;;
  ps <- get scan_params (py "privacy_settings") (JObj []) ;;
  tfs <- get summary (py "total_files_skipped") (JInt 0) ;;
  tds <- get summary (py "total_directories_scanned") (JInt 0) ;;
  tmf <- get summary (py "total_matches_found") (JInt 0) ;;
  ee <- get summary (py "errors_encountered") (JInt 0) ;;
  sds <- get summary (py "scan_duration_seconds") (JInt 0) ;;
  fbt <- get scan_results (py "findings_by_type") (JObj []) ;;
  ra <- get scan_results (py "risk_assessment") (JObj []) ;;
  sid <- get metadata (py "scan_id") (JStr []) ;;
  ts <- get metadata (py "timestamp") (JStr []) ;;
  rv <- get metadata (py "report_version") (JStr []) ;;
  rh <- get metadata (py "report_hash") (JStr []) ;;
  cn <- get report (py "compliance_notes") (JObj []) ;;
  Ok (JObj [(py "agent_id", agent_id);
            (py "operator", operator);
            (py "scan_date", scan_date);
            (py "directories_scanned", directories_scanned);
            (py "total_files_scanned", total_files);
            (py "findings", findings);
            (py "scan_configuration",
               JObj [(py "exclude_patterns_count", epc); (py "detect_plain_pan_enabled", dpp);
                     (py "action_policy", ap); (py "max_file_size_mb", mfs);
                     (py "concurrency", conc); (py "privacy_settings", ps)]);
            (py "scan_results_summary",
               JObj [(py "total_files_skipped", tfs); (py "total_directories_scanned", tds);
                     (py "total_matches_found", tmf); (py "errors_encountered", ee);
                     (py "scan_duration_seconds", sds); (py "findings_by_type", fbt);
                     (py "risk_assessment", ra)]);
            (py "metadata",
               JObj [(py "scan_id", sid); (py "timestamp", ts);
                     (py "report_version", rv); (py "report_hash", rh)]);
            (py "compliance_notes", cn)]).

(** [SecureClient.send_report]: the payloads POSTed to [/api/reports] and
    the returned boolean; every exception is caught and gives [False]. *)
Definition send_report (cc : client_config) (server : nat -> http_outcome) (report : json)
    : list json * bool :=
  match md <- getitem report (py "metadata") ;; getitem md (py "scan_id") with
  | Raise _ => ([], false)
  | Ok _ =>
      match validate_report report with
      | Raise _ | Ok false => ([], false)
      | Ok true =>
          match transform_report report with
          | Raise _ => ([], false)
          | Ok server_report =>
              let '(posted, response) := make_post cc server server_report in
              match response with
              | Some (JObj _) => (posted, true)        (* response.get('report_id', ...) *)
              | Some _ => (posted, false)               (* AttributeError, caught *)
              | None => (posted, false)
              end
          end
      end
  end.

End WithDb.
End Client.

(* ================================================================== *)
(** ** file_scanner.py: [FileScanner.scan_directories] *)

Module Scanner.

(** The progress events passed to [progress_callback]. *)
Inductive event :=
| EvCounting (total_files : nat)
    (* {'phase': 'counting', 'total_files': n, 'files_scanned': 0, 'matches_found': 0} *)
| EvScanning (files_scanned total_files matches_found : nat)
    (* {'phase': 'scanning', ...} *)
| EvComplete (files_scanned total_files matches_found : nat).
    (* {'phase': 'complete', ..., 'percentage': 100, 'completed': True} *)

(** [len(all_files) >= self.max_files], where a configured 0 means
    [float('inf')]. *)
Definition reached_max (max_files_per_scan n : nat) : bool :=
  if max_files_per_scan =? 0 then false else max_files_per_scan <=? n.

Fixpoint remove_nth {A} (n : nat) (l : list A) : list A :=
  match l, n with
  | [], _ => []
  | _ :: rest, 0 => rest
  | x :: rest, S n' => x :: remove_nth n' rest
  end.

Section Scan.
Variable A : Type.                     (* PANMatch *)
(** The paths [walk_directory(root)] yields when run to exhaustion (it only
    reads the file system and [stats['files_scanned']], which pass 1 does
    not change). *)
Variable walk : pystr -> list pystr.
(** [FileScanner.scan_file] *)
Variable scan_file : pystr -> list A.
(** [self.stop_requested] as read by the check that follows the [n]-th
    append of pass 1 ([request_stop] runs on another thread). *)
Variable stop_pass1 : nat -> bool.
(** [self.stop_requested] as read at the top of the [k]-th iteration of
    [while futures] and at the resubmission test of that iteration. *)
Variable stop_loop : nat -> bool.
Variable stop_resubmit : nat -> bool.
(** The future [as_completed] yields first in iteration [k], as an index
    into the futures in flight (in submission order), modulo their number. *)
Variable pick : nat -> nat.

(** The loop over the paths of one root in pass 1; the flag is [true] when
    [return []] was taken. *)
Fixpoint count_root (max_files : nat) (paths all_files : list pystr) (evs : list event)
    : list pystr * list event * bool :=
  match paths with
  | [] => (all_files, evs, false)
  | p :: rest =>
      let all_files' := all_files ++ [p] in
      let n := length all_files' in
      let evs' := if n mod 1000 =? 0 then evs ++ [EvCounting n] else evs in
      if stop_pass1 n then (all_files', evs', true)
      else if reached_max max_files n then (all_files', evs', false)     (* break *)
      else count_root max_files rest all_files' evs'
  end.

(** Pass 1: [for directory in directories: for file_path in walk_directory(...)]. *)
Fixpoint count_roots (max_files : nat) (dirs all_files : list pystr) (evs : list event)
    : list pystr * list event * bool :=
  match dirs with
  | [] => (all_files, evs, false)
  | d :: rest =>
      let '(all_files', evs', stopped) := count_root max_files (walk d) all_files evs in
      if stopped then (all_files', evs', true)
      else count_roots max_files rest all_files' evs'
  end.

(** Pass 2: the [while futures] loop. *)
Fixpoint pass2 (fuel k : nat) (all_files : list pystr) (total : nat) (futures : list pystr)
    (file_index files_completed : nat) (all_matches : list A) (evs : list event)
    : nat * list A * list event :=
  match fuel with
  | 0 => (files_completed, all_matches, evs)
  | S f =>
      match futures with
      | [] => (files_completed, all_matches, evs)
      | _ :: _ =>
          if stop_loop k then (files_completed, all_matches, evs)   (* cancel, break *)
          else
            let idx := pick k mod length futures in
            let file_path := nth idx futures [] in
            let futures' := remove_nth idx futures in
            let all_matches' := all_matches ++ scan_file file_path in
            let completed := S files_completed in
            let evs' := evs ++ [EvScanning completed total (length all_matches')] in
            if (file_index <? total) && negb (stop_resubmit k) then
              pass2 f (S k) all_files total (futures' ++ [nth file_index all_files []])
                    (S file_index) completed all_matches' evs'
            else
              pass2 f (S k) all_files total futures' file_index completed all_matches' evs'
      end
  end.

(** [FileScanner.scan_directories(directories, progress_callback)]: the
    returned matches and the events given to the callback.  [stop_requested]
    is reset at entry; [ThreadPoolExecutor(max_workers=0)] raises. *)
Definition scan_directories (cfg : Detection.config) (directories : list pystr)
    : result (list A * list event) :=
  let '(all_files, evs1, stopped) :=
    count_roots (Detection.max_files_per_scan cfg) directories [] [EvCounting 0] in
  if stopped then Ok ([], evs1)
  else
    let total := length all_files in
    if total =? 0 then Ok ([], evs1)
    else
      let evs2 := evs1 ++ [EvScanning 0 total 0] in
      if Detection.concurrency cfg =? 0 then Raise ValueError
      else
        let initial := Nat.min (Detection.concurrency cfg * 2) total in
        let '(completed, all_matches, evs3) :=
          pass2 (S total) 0 all_files total (firstn initial all_files) initial 0 [] evs2 in
        Ok (all_matches, evs3 ++ [EvComplete completed total (length all_matches)]).

(** The phase of an event is ['counting']. *)
Definition is_counting (e : event) : bool :=
  match e with EvCounting _ => true | _ => false end.

(** The paths collected by pass 1, i.e. the files that pass 2 submits. *)
Definition pass1_files (cfg : Detection.config) (directories : list pystr) : list pystr :=
  let '(all_files, _, _) :=
    count_roots (Detection.max_files_per_scan cfg) directories [] [EvCounting 0] in
  all_files.

End Scan.
End Scanner.

(* ================================================================== *)
(** ** audit_logger.py *)

Module Audit.
Section WithDb.
Variable db : unicode_db.

(** The replacement templates are ordinary (not raw) Python strings:
    ['\\Users\\<user>\\'] is the template [\Users\<user>\]. *)
Definition sanitize_file_path (file_path : pystr) : result pystr :=
  s1 <- re_sub db users_slash_re (py "/Users/<user>/") file_path ;;
  s2 <- re_sub db users_bslash_re (py "\Users\<user>\") s1 ;;
  re_sub db c_users_bslash_re (py "C:\Users\<user>\") s2.

Import Json.

(** [AuditLogger._create_base_entry(event_type, **kwargs)]: [timestamp] is
    [datetime.now(timezone.utc).isoformat()], [pid] and [tid] are
    [os.getpid()] and [threading.get_ident()]; [entry.update(kwargs)]. *)
Definition create_base_entry (timestamp : pystr) (pid tid : Z) (event_type : pystr)
    (kwargs : list (pystr * json)) : json :=
  JObj (fold_left (fun entry kv => set_kvs entry (fst kv) (snd kv)) kwargs
          [(py "timestamp", JStr timestamp); (py "event_type", JStr event_type);
           (py "process_id", JInt pid); (py "thread_id", JInt tid)]).

(** [AuditLogger._assess_finding_risk] *)
Definition assess_finding_risk (luhn_valid is_masked : bool) (confidence : Q) : pystr :=
  if luhn_valid && negb is_masked && Detection.qlt (8 # 10) confidence then py "critical"
  else if luhn_valid && negb is_masked then py "high"
  else if luhn_valid && is_masked then py "medium"
  else py "low".

(** The entry [AuditLogger.log_pan_detection] hands to [_write_audit_entry]. *)
Definition log_pan_detection (timestamp : pystr) (pid tid : Z) (scan_id file_path : pystr)
    (line_number : Z) (card_type : pystr) (luhn_valid : bool) (confidence : Q)
    (is_masked : bool) (action_taken : pystr) : result json :=
  sanitized_path <- sanitize_file_path file_path ;;
  Ok (create_base_entry timestamp pid tid (py "pan_detected")
        [(py "scan_id", JStr scan_id); (py "file_path", JStr sanitized_path);
         (py "line_number", JInt line_number); (py "card_type", JStr card_type);
         (py "luhn_valid", JBool luhn_valid); (py "confidence_score", JFloat confidence);
         (py "is_masked", JBool is_masked); (py "action_taken", JStr action_taken);
         (py "risk_level", JStr (assess_finding_risk luhn_valid is_masked confidence))]).

(** The entry [AuditLogger.log_file_access] hands to [_write_audit_entry];
    [None] when it returns early. *)
Definition log_file_access (enable_detailed_logging : bool) (timestamp : pystr) (pid tid : Z)
    (scan_id file_path access_type status : pystr) (error_message : json)
    : result (option json) :=
  if negb enable_detailed_logging then Ok None
  else
    sanitized_path <- sanitize_file_path file_path ;;
    Ok (Some (create_base_entry timestamp pid tid (py "file_access")
                [(py "scan_id", JStr scan_id); (py "file_path", JStr sanitized_path);
                 (py "access_type", JStr access_type); (py "status", JStr status);
                 (py "error_message", error_message)])).

(** The entry [AuditLogger.log_config_change] hands to [_write_audit_entry];
    [old_value], [new_value] and [justification] are any JSON values. *)
Definition log_config_change (timestamp : pystr) (pid tid : Z) (operator setting : pystr)
    (old_value new_value justification : json) : json :=
  let sl := u_lower db setting in
  let sensitive := is_infix (py "password") sl || is_infix (py "token") sl
                   || is_infix (py "key") sl in
  let old_value := if sensitive then (if truthy old_value then JStr (py "<redacted>") else JNull)
                   else old_value in
  let new_value := if sensitive then (if truthy new_value then JStr (py "<redacted>") else JNull)
                   else new_value in
  create_base_entry timestamp pid tid (py "config_changed")
    [(py "operator", JStr operator); (py "setting", JStr setting);
     (py "old_value", old_value); (py "new_value", new_value);
     (py "justification", justification)].

End WithDb.
End Audit.

(* ================================================================== *)
(** ** The language of a regular expression

    [lang db s r i j]: [r] matches [s] from position [i] to position [j].
    Star iterations are non-empty, as in the matcher. *)
Inductive lang (db : unicode_db) (s : pystr) : regex -> nat -> nat -> Prop :=
| LClass p i c : nth_error s i = Some c -> p c = true -> lang db s (RClass p) i (S i)
| LSeq r1 r2 i j k : lang db s r1 i j -> lang db s r2 j k -> lang db s (RSeq r1 r2) i k
| LAltL r1 r2 i j : lang db s r1 i j -> lang db s (RAlt r1 r2) i j
| LAltR r1 r2 i j : lang db s r2 i j -> lang db s (RAlt r1 r2) i j
| LStarNil r i : lang db s (RStar r) i i
| LStarCons r i j k : i < j -> lang db s r i j -> lang db s (RStar r) j k ->
    lang db s (RStar r) i k
| LWordB i : at_boundary db s i = true -> lang db s RWordB i i
| LEmpty i : lang db s REmpty i i.

(** Patterns without [\b]: their matches do not depend on the
    surrounding text. *)
Fixpoint no_wordb (r : regex) : bool :=
  match r with
  | RClass _ | REmpty => true
  | RSeq r1 r2 | RAlt r1 r2 => no_wordb r1 && no_wordb r2
  | RStar r1 => no_wordb r1
  | RWordB => false
  end.

(* ================================================================== *)
(** ** A concrete character database for the examples

    It agrees with Python's [unicodedata] on ASCII and on the superscript
    digits U+00B9, U+00B2 and U+00B3 ([isdigit()] and [isalnum()] hold,
    [int()] raises); it treats every other non-ASCII character as neither a
    digit nor a word character. *)
Definition superscript_digit (c : N) : bool := ((c =? 185) || (c =? 178) || (c =? 179))%N.

Definition sample_db : unicode_db := {|
  u_isdigit := fun c => is_ascii_digit c || superscript_digit c;
  u_decimal := fun c => if is_ascii_digit c then Some (N.to_nat (c - 48)) else None;
  u_isword := fun c => is_ascii_digit c || is_ascii_upper c || is_ascii_lower c
                       || (c =? 95)%N || superscript_digit c;
  u_lower := map ascii_lower_char |}.

(** The [hash] entry of [pan_data]. *)
Definition hash_of (sha256_hex : pystr -> pystr) (raw : pystr) : Json.json :=
  match raw with [] => Json.JNull | _ => Json.JStr (sha256_hex raw) end.

(** The default configuration with [exclude_masked_patterns = False] and
    [allow_full_pan_retention = True]. *)
Definition no_exclude_config : Detection.config := {|
  Detection.require_luhn_validation := true; Detection.minimum_confidence_score := 7 # 10;
  Detection.context_window_chars := 100; Detection.exclude_masked_patterns := false;
  Detection.show_last4_only := true; Detection.allow_full_pan_retention := true;
  Detection.redact_pan := true; Detection.max_files_per_scan := 10000;
  Detection.concurrency := 4 |}.

(** A report for the [send_report] examples: the required sections, a
    timestamp without a time part, no floats, and a free-text [note]. *)
Definition sample_client_report (note : pystr) : Json.json :=
  Json.JObj [(py "metadata",
                Json.JObj [(py "agent_id", Json.JStr (py "agent-1"));
                           (py "scan_id", Json.JStr (py "scan-1"));
                           (py "timestamp", Json.JStr (py "2024-01-01"));
                           (py "operator", Json.JStr (py "ops"));
                           (py "report_hash", Json.JStr [])]);
             (py "scan_parameters", Json.JObj []);
             (py "scan_results", Json.JObj []);
             (py "compliance_notes", Json.JObj [(py "note", Json.JStr note)])].

Definition sample_client_config : Client.client_config :=
  {| Client.server_url := Some (py "https://pci.example"); Client.max_retries := 3 |}.

(** A server that answers every request with [200] and an empty object. *)
Definition accepting_server (attempt : nat) : Client.http_outcome :=
  Client.HttpResponse 200 (Json.JObj []).

(** The default configuration with [max_files_per_scan = 1]. *)
Definition max_one_config : Detection.config := {|
  Detection.require_luhn_validation := true; Detection.minimum_confidence_score := 7 # 10;
  Detection.context_window_chars := 100; Detection.exclude_masked_patterns := true;
  Detection.show_last4_only := true; Detection.allow_full_pan_retention := false;
  Detection.redact_pan := true; Detection.max_files_per_scan := 1;
  Detection.concurrency := 4 |}.

(** A file system in which every root holds the one file [card.txt]. *)
Definition one_file_walk (root : pystr) : list pystr := [root ++ py "/card.txt"].

(* ================================================================== *)
(** ** Static facts about patterns *)

(** Patterns without repetition. *)
Fixpoint star_free (r : regex) : bool :=
  match r with
  | RStar _ => false
  | RSeq r1 r2 | RAlt r1 r2 => star_free r1 && star_free r2
  | RClass _ | RWordB | REmpty => true
  end.

(** The possible lengths of a match of a pattern without repetition. *)
Fixpoint match_lengths (r : regex) : list nat :=
  match r with
  | RClass _ => [1]
  | RSeq r1 r2 => flat_map (fun a => map (Nat.add a) (match_lengths r2)) (match_lengths r1)
  | RAlt r1 r2 => match_lengths r1 ++ match_lengths r2
  | RStar _ => []
  | RWordB | REmpty => [0]
  end.

(** Every way through the pattern ends with [\b]. *)
Fixpoint tail_wordb (r : regex) : bool :=
  match r with
  | RWordB => true
  | RSeq _ r2 => tail_wordb r2
  | RAlt r1 r2 => tail_wordb r1 && tail_wordb r2
  | _ => false
  end.


(** The digit counts of the numbers of each brand, as the patterns of
    [CARD_PATTERNS] write them. *)
Definition card_lengths (ct : Detection.CardType) : list nat :=
  match ct with
  | Detection.VISA => [13; 16]
  | Detection.MASTERCARD => [16]
  | Detection.AMEX => [15]
  | Detection.DISCOVER => [16]
  | Detection.DINERS => [14]
  | Detection.JCB => [15; 16]
  | Detection.UNKNOWN => []
  end.

(** [d[k1][k2]...] *)
Fixpoint json_path (j : Json.json) (keys : list pystr) : result Json.json :=
  match keys with
  | [] => Ok j
  | k :: rest => v <- Json.getitem j k ;; json_path v rest
  end.

(** [sum(d.values())] for a dict whose values are ints (other values count
    as 0). *)
Definition json_int_sum (kvs : list (pystr * Json.json)) : Z :=
  fold_right (fun kv acc => (match snd kv with Json.JInt z => z | _ => 0 end + acc)%Z) 0%Z kvs.


(** The scanning events of [scan_directories] when the files complete in
    the order [order]: one per file, with the files and matches so far. *)
Definition scanning_events {A} (scan_file : pystr -> list A) (total : nat) (order : list pystr)
    : list Scanner.event :=
  map (fun i => Scanner.EvScanning i total (length (flat_map scan_file (firstn i order))))
      (seq 1 (length order)).

(* ================================================================== *)
(** * Proofs *)

Lemma superscript_not_ascii : forall c, (c < 128)%N -> superscript_digit c = false.
Proof.
  intros c Hc. unfold superscript_digit.
  destruct (N.eqb_spec c 185); destruct (N.eqb_spec c 178); destruct (N.eqb_spec c 179);
    simpl; auto; lia.
Qed.

Lemma sample_db_ok : db_ascii_ok sample_db.
Proof.
  constructor; simpl.
  - intros c Hc. rewrite superscript_not_ascii by exact Hc. apply orb_false_r.
  - reflexivity.
  - intros c v H. destruct (is_ascii_digit c) eqn:E; [|discriminate].
    injection H as <-. split; [reflexivity|].
    unfold is_ascii_digit in E. apply andb_true_iff in E as [E1 E2].
    apply N.leb_le in E1, E2. lia.
  - intros c Hc. rewrite superscript_not_ascii by exact Hc. apply orb_false_r.
  - reflexivity.
Qed.

(* ------------------------------------------------------------------ *)
(** ** Masking ([PANDetector.mask_pan]) *)

Section Masking.
Import Detection.

Lemma star_free_factor : forall k t a b c,
  repeat star k ++ t = a ++ b ++ c ->
  Forall (fun x => x <> star) b ->
  length b <= length t.
Proof.
  induction k as [|k IH]; intros t a b c Heq Hb; simpl in Heq.
  - subst t. rewrite !length_app. lia.
  - destruct a as [|x a'].
    + destruct b as [|y b']; [simpl; lia|].
      simpl in Heq. injection Heq as Hy _. inversion Hb; subst. congruence.
    + simpl in Heq. injection Heq as _ Heq. exact (IH t a' b c Heq Hb).
Qed.

(** C5. For a digit string [pan] of length [n] (any string without ['*']):
    with [show_last4] and [n >= 4] the result is [n - 4] stars followed by the
    last four characters of [pan]; without [show_last4] it is [n] stars; for
    [n < 4] it is [n] stars; and every run of the result made of input
    characters (no ['*']) has length at most 4. *)
Theorem mask_pan_spec : forall (pan : pystr) (show_last4 : bool),
  Forall (fun x => x <> star) pan ->
  (show_last4 = true -> 4 <= length pan ->
     mask_pan pan show_last4 = repeat star (length pan - 4) ++ skipn (length pan - 4) pan) /\
  (show_last4 = false -> mask_pan pan show_last4 = repeat star (length pan)) /\
  (length pan < 4 -> mask_pan pan show_last4 = repeat star (length pan)) /\
  (forall a b c, mask_pan pan show_last4 = a ++ b ++ c ->
     Forall (fun x => x <> star) b -> length b <= 4).
Proof.
  intros pan show_last4 _. unfold mask_pan.
  destruct (Nat.ltb_spec (length pan) 4) as [Hlt|Hge].
  - split; [intros _ H; lia|]. split; [reflexivity|]. split; [reflexivity|].
    intros a b c Heq Hb. rewrite <- (app_nil_r (repeat star (length pan))) in Heq.
    pose proof (star_free_factor _ _ _ _ _ Heq Hb). simpl in *. lia.
  - split; [intros ->; reflexivity|].
    split; [intros ->; reflexivity|].
    split; [intros H; lia|].
    intros a b c Heq Hb. destruct show_last4.
    + pose proof (star_free_factor _ _ _ _ _ Heq Hb) as H.
      rewrite length_skipn in H. lia.
    + rewrite <- (app_nil_r (repeat star (length pan))) in Heq.
      pose proof (star_free_factor _ _ _ _ _ Heq Hb). simpl in *. lia.
Qed.

Lemma mask_pan_spec_witness :
  Forall (fun x => x <> star) (py "4111111111111111") /\
  mask_pan (py "4111111111111111") true = repeat star 12 ++ py "1111".
Proof.
  split.
  - repeat constructor; unfold star; discriminate.
  - pose proof (mask_pan_spec (py "4111111111111111") true) as H.
    destruct H as [H _].
    + repeat constructor; unfold star; discriminate.
    + rewrite H by (reflexivity || (simpl; lia)). reflexivity.
Defined.

End Masking.

(* ------------------------------------------------------------------ *)
(** ** Path sanitisation ([_sanitize_file_path]) *)

(** C10. [AuditLogger._sanitize_file_path] raises [re.error] ("bad escape
    \U") on every input: its second replacement template is the ordinary
    string ['\\Users\\<user>\\'], i.e. [\Users\<user>\], and [re.sub]
    compiles the template before matching.  So it never returns a path to
    which it could be applied a second time. *)
Theorem audit_sanitize_file_path_raises : forall db p,
  Audit.sanitize_file_path db p = Raise (ReError (py "bad escape \U")).
Proof. intros db p. reflexivity. Qed.

(* ------------------------------------------------------------------ *)
(** ** Soundness and completeness of the backtracking matcher *)

Section Semantics.
Variable db : unicode_db.

Lemma lang_le : forall s r i j, lang db s r i j -> i <= j.
Proof. intros s r i j H. induction H; lia. Qed.

Lemma lang_bound : forall s r i j, lang db s r i j -> i = j \/ j <= length s.
Proof.
  intros s r i j H. induction H; auto.
  - right. assert (i < length s) by (apply nth_error_Some; congruence). lia.
  - pose proof (lang_le _ _ _ _ H). pose proof (lang_le _ _ _ _ H0). intuition lia.
  - pose proof (lang_le _ _ _ _ H1). intuition lia.
Qed.

Lemma bt_sound : forall s r i k e,
  bt db s r i k = Some e -> exists j, lang db s r i j /\ k j = Some e.
Proof.
  intros s r. induction r as [p|r1 IH1 r2 IH2|r1 IH1 r2 IH2|r1 IH1| |];
    intros i k e H; simpl in H.
  - destruct (nth_error s i) as [c|] eqn:E; [|discriminate].
    destruct (p c) eqn:P; [|discriminate].
    exists (S i). split; [econstructor; eauto|exact H].
  - destruct (IH1 _ _ _ H) as [m [Hm Hk]]. destruct (IH2 _ _ _ Hk) as [j [Hj Hk']].
    exists j. split; [econstructor; eauto|exact Hk'].
  - destruct (bt db s r1 i k) eqn:E.
    + injection H as <-. destruct (IH1 _ _ _ E) as [j [Hj Hk]].
      exists j. split; [apply LAltL|]; auto.
    + destruct (IH2 _ _ _ H) as [j [Hj Hk]]. exists j. split; [apply LAltR|]; auto.
  - revert e H. generalize (length s - i + 1) as fuel. intros fuel. revert i.
    induction fuel as [|f IHf]; intros i e H; simpl in H.
    + exists i. split; [constructor|exact H].
    + destruct (bt db s r1 i _) as [n|] eqn:E.
      * injection H as <-. destruct (IH1 _ _ _ E) as [m [Hm Hk]].
        destruct (Nat.eqb_spec m i) as [->|Hne]; [discriminate|].
        destruct (IHf _ _ Hk) as [j [Hj Hkj]].
        pose proof (lang_le _ _ _ _ Hm).
        exists j. split; [apply LStarCons with m; auto; lia|exact Hkj].
      * exists i. split; [constructor|exact H].
  - destruct (at_boundary db s i) eqn:E; [|discriminate].
    exists i. split; [constructor; exact E|exact H].
  - exists i. split; [constructor|exact H].
Qed.

Lemma bt_complete : forall s r i j k,
  lang db s r i j -> k j <> None -> bt db s r i k <> None.
Proof.
  intros s r. induction r as [p|r1 IH1 r2 IH2|r1 IH1 r2 IH2|r1 IH1| |];
    intros i j k H Hk; simpl.
  - inversion H as [p' i' c Hc Hp| | | | | | |]; subst. rewrite Hc, Hp. exact Hk.
  - inversion H as [|r1' r2' i' m j' Hm Hj| | | | | |]; subst.
    apply (IH1 i m); [assumption|]. apply (IH2 m j); assumption.
  - destruct (bt db s r1 i k) eqn:E; [discriminate|].
    inversion H as [| |r1' r2' i' j' Hl|r1' r2' i' j' Hl| | | |]; subst.
    + exfalso. exact (IH1 i j k Hl Hk E).
    + apply (IH2 i j); assumption.
  - assert (Hloop : forall i, lang db s (RStar r1) i j -> forall fuel, length s - i < fuel ->
              star_loop (fun i k' => bt db s r1 i k') k fuel i <> None).
    { clear i H. intros i Hl. remember (RStar r1) as rr eqn:Err.
      induction Hl; try discriminate.
      - intros [|f] Hf; [lia|]. simpl.
        destruct (bt db s r1 i _); [discriminate|exact Hk].
      - injection Err as ->. specialize (IHHl2 Hk eq_refl).
        intros [|f] Hf; [lia|]. simpl.
        destruct (bt db s r1 i _) as [x|] eqn:E; [discriminate|].
        exfalso. refine (IH1 i j _ Hl1 _ E).
        destruct (Nat.eqb_spec j i) as [->|Hne]; [lia|].
        destruct (lang_bound _ _ _ _ Hl1) as [->|Hb]; [lia|].
        apply IHHl2. lia. }
    apply Hloop; [exact H|lia].
  - inversion H as [| | | | | |i' Hb|]; subst. rewrite Hb. exact Hk.
  - inversion H; subst. exact Hk.
Qed.

(** Matches of a pattern without [\\b] only look at the matched characters. *)
Lemma lang_shift : forall w s off r i j,
  lang db w r i j -> no_wordb r = true ->
  (forall x, x < length w -> nth_error s (off + x) = nth_error w x) ->
  lang db s r (off + i) (off + j).
Proof.
  intros w s off r i j H Hnw Hnth. induction H; simpl in Hnw.
  - replace (off + S i) with (S (off + i)) by lia. apply LClass with c; [|assumption].
    rewrite Hnth; [assumption|]. apply nth_error_Some. congruence.
  - apply andb_prop in Hnw as [H1 H2]. econstructor; eauto.
  - apply andb_prop in Hnw as [H1 H2]. apply LAltL; auto.
  - apply andb_prop in Hnw as [H1 H2]. apply LAltR; auto.
  - constructor.
  - apply LStarCons with (off + j); [lia|auto|auto].
  - discriminate.
  - constructor.
Qed.

End Semantics.

(* ------------------------------------------------------------------ *)
(** ** Searching a slice *)

Lemma firstn_add_skipn : forall {A} n m (l : list A),
  firstn (n + m) l = firstn n l ++ firstn m (skipn n l).
Proof.
  intros A n. induction n as [|n IH]; intros m l; [reflexivity|].
  destruct l as [|x l]; simpl.
  - destruct m; reflexivity.
  - f_equal. apply IH.
Qed.

Lemma py_slice_app : forall s a b c, a <= b -> b <= c ->
  py_slice s a b ++ py_slice s b c = py_slice s a c.
Proof.
  intros s a b c Hab Hbc. unfold py_slice.
  replace (c - a) with ((b - a) + (c - b)) by lia.
  rewrite firstn_add_skipn, skipn_skipn. f_equal. f_equal. f_equal. lia.
Qed.

Lemma length_py_slice : forall s a b, a <= b -> b <= length s ->
  length (py_slice s a b) = b - a.
Proof.
  intros s a b Hab Hb. unfold py_slice. rewrite length_firstn, length_skipn. lia.
Qed.

Lemma nth_error_py_slice : forall s a b x, x < b - a ->
  nth_error (py_slice s a b) x = nth_error s (a + x).
Proof.
  intros s a b x Hx. unfold py_slice. rewrite nth_error_firstn.
  destruct (Nat.ltb_spec x (b - a)); [|lia]. apply nth_error_skipn.
Qed.

Lemma existsb_seq_In : forall (f : nat -> bool) n i, i < n -> f i = true ->
  existsb f (seq 0 n) = true.
Proof.
  intros f n i Hi Hf. apply existsb_exists. exists i. split; [|exact Hf].
  apply in_seq. lia.
Qed.

(** A pattern without [\\b] found in [s[a:b]] is found in [s]. *)
Lemma re_search_slice : forall db s a b r,
  no_wordb r = true -> a <= b -> b <= length s ->
  re_search db (py_slice s a b) r = true -> re_search db s r = true.
Proof.
  intros db s a b r Hnw Hab Hb H. unfold re_search in *.
  apply existsb_exists in H as [i [Hin Hm]].
  apply in_seq in Hin. rewrite length_py_slice in Hin by assumption.
  destruct (match_at db (py_slice s a b) r i) as [e|] eqn:E; [|discriminate].
  unfold match_at in E. apply bt_sound in E as [j [Hj _]].
  apply (existsb_seq_In _ _ (a + i)); [lia|].
  unfold match_at.
  destruct (bt db s r (a + i) (fun j => Some j)) eqn:E'; [reflexivity|].
  exfalso. refine (bt_complete db s r (a + i) (a + j) _ _ _ E'); [|discriminate].
  apply (lang_shift db (py_slice s a b)); [exact Hj|exact Hnw|].
  intros x Hx. rewrite length_py_slice in Hx by assumption.
  symmetry. apply nth_error_py_slice. exact Hx.
Qed.

(** The spans of [finditer] lie inside the string. *)
Lemma finditer_from_spans : forall db s fuel i r x y,
  In (x, y) (finditer_from db s fuel i r) -> x <= y /\ y <= length s.
Proof.
  intros db s fuel. induction fuel as [|f IH]; intros i r x y H; simpl in H; [contradiction|].
  destruct (Nat.ltb_spec (length s) i) as [_|Hi]; [contradiction|].
  destruct (match_at db s r i) as [j|] eqn:E.
  - destruct H as [H|H]; [|eapply IH; exact H].
    injection H as <- <-. unfold match_at in E. apply bt_sound in E as [j' [Hj Hk]].
    injection Hk as ->. pose proof (lang_le _ _ _ _ _ Hj).
    destruct (lang_bound _ _ _ _ _ Hj); lia.
  - eapply IH. exact H.
Qed.

Lemma finditer_spans : forall db s r x y,
  In (x, y) (finditer db s r) -> x <= y /\ y <= length s.
Proof. intros db s r x y. apply finditer_from_spans. Qed.

Lemma mapR_In : forall {A B} (f : A -> result B) l l' y,
  mapR f l = Ok l' -> In y l' -> exists x, In x l /\ f x = Ok y.
Proof.
  intros A B f l. induction l as [|a l IH]; intros l' y H Hy; simpl in H.
  - injection H as <-. contradiction.
  - destruct (f a) as [b|e] eqn:Ef; [|discriminate]. simpl in H.
    destruct (mapR f l) as [bs|e] eqn:Er; [|discriminate]. simpl in H.
    injection H as <-. destruct Hy as [<-|Hy].
    + exists a. split; [left|]; auto.
    + destruct (IH bs y eq_refl Hy) as [x [Hx Hfx]]. exists x. split; [right|]; auto.
Qed.

(* ------------------------------------------------------------------ *)
(** ** Where the matches of [scan_text] come from *)

Section ScanText.
Import Detection.
Variable db : unicode_db.

Lemma scan_line_origin : forall cfg fp ln line ms m,
  scan_line db cfg fp ln line = Ok ms -> In m ms ->
  exists ct pat a b, In (a, b) (finditer db line pat) /\
    is_masked_number db cfg line = false /\
    scan_candidate db cfg fp ln line ct (a, b) = Ok (Some m).
Proof.
  intros cfg fp ln line ms m H Hm. unfold scan_line in H.
  destruct (is_masked_number db cfg line) eqn:Emask.
  - injection H as <-. contradiction.
  - destruct (mapR _ (compiled_patterns db)) as [per_type|e] eqn:E; [|discriminate].
    simpl in H. injection H as <-.
    apply in_concat in Hm as [l [Hl Hml]].
    destruct (mapR_In _ _ _ _ E Hl) as [[ct pat] [_ Hct]].
    destruct (mapR _ (finditer db line pat)) as [found|e] eqn:E2; [|discriminate].
    simpl in Hct. injection Hct as <-.
    apply in_flat_map in Hml as [o [Ho Hmo]].
    destruct o as [m'|]; [|contradiction]. destruct Hmo as [<-|[]].
    destruct (mapR_In _ _ _ _ E2 Ho) as [[a b] [Hab Hc]].
    exists ct, pat, a, b. auto.
Qed.

Lemma scan_lines_origin : forall cfg fp lines ln ms m,
  scan_lines db cfg fp ln lines = Ok ms -> In m ms ->
  exists ln' line ct pat a b, In (a, b) (finditer db line pat) /\
    is_masked_number db cfg line = false /\
    scan_candidate db cfg fp ln' line ct (a, b) = Ok (Some m).
Proof.
  intros cfg fp lines. induction lines as [|line rest IH]; intros ln ms m H Hm; simpl in H.
  - injection H as <-. contradiction.
  - destruct (scan_line db cfg fp ln line) as [here|e] eqn:E1; [|discriminate]. simpl in H.
    destruct (scan_lines db cfg fp (S ln) rest) as [later|e] eqn:E2; [|discriminate].
    simpl in H. injection H as <-. apply in_app_or in Hm as [Hm|Hm].
    + destruct (scan_line_origin _ _ _ _ _ _ E1 Hm) as [ct [pat [a [b Hx]]]].
      exists ln, line, ct, pat, a, b. exact Hx.
    + exact (IH _ _ _ E2 Hm).
Qed.

Lemma scan_text_origin : forall cfg text fp ms m,
  scan_text db cfg text fp = Ok ms -> In m ms ->
  exists ln line ct pat a b, In (a, b) (finditer db line pat) /\
    is_masked_number db cfg line = false /\
    scan_candidate db cfg fp ln line ct (a, b) = Ok (Some m).
Proof. intros cfg text fp ms m H. exact (scan_lines_origin _ _ _ _ _ _ H). Qed.

(** The fields of an emitted match that the claims are about. *)
Lemma scan_candidate_fields : forall cfg fp ln line ct a b m,
  scan_candidate db cfg fp ln line ct (a, b) = Ok (Some m) ->
  raw_match m = (if allow_full_pan_retention cfg then py_slice line a b else []) /\
  is_masked m = is_masked_number db cfg
    (py_slice line (a - context_window_chars cfg) a ++ py_slice line a b
     ++ py_slice line b (Nat.min (length line) (b + context_window_chars cfg))).
Proof.
  intros cfg fp ln line ct a b m H. unfold scan_candidate in H.
  destruct (_ || _); [discriminate|].
  destruct (luhn_check db _) as [lv|e]; [|discriminate]. simpl in H.
  destruct (require_luhn_validation cfg && negb lv); [discriminate|].
  destruct (qlt _ _); [discriminate|].
  injection H as <-. split; reflexivity.
Qed.

End ScanText.

(* ------------------------------------------------------------------ *)
(** ** The [is_masked] field of a match *)

Lemma masked_regex_no_wordb : forall db,
  Forall (fun r => no_wordb r = true) (Detection.masked_regex db).
Proof. intros db. repeat constructor. Qed.

(** A masked pattern found in the context window of a candidate is found in
    its line. *)
Lemma is_masked_window_line : forall db cfg line a b,
  a <= b -> b <= length line ->
  Detection.is_masked_number db cfg line = false ->
  Detection.is_masked_number db cfg
    (py_slice line (a - Detection.context_window_chars cfg) a ++ py_slice line a b
     ++ py_slice line b (Nat.min (length line) (b + Detection.context_window_chars cfg)))
  = false.
Proof.
  intros db cfg line a b Hab Hb Hline.
  rewrite py_slice_app, py_slice_app by lia.
  unfold Detection.is_masked_number in *.
  destruct (Detection.exclude_masked_patterns cfg); [|reflexivity]. cbv [negb] in *.
  apply not_true_is_false. intro E.
  apply existsb_exists in E as [r [Hr Hs]].
  enough (existsb (re_search db line) (Detection.masked_regex db) = true) by congruence.
  apply existsb_exists. exists r. split; [exact Hr|].
  apply (re_search_slice db line (a - Detection.context_window_chars cfg)
           (Nat.min (length line) (b + Detection.context_window_chars cfg))); [|lia|lia|exact Hs].
  pose proof (masked_regex_no_wordb db) as Hall. rewrite Forall_forall in Hall. auto.
Qed.

(** C8, counterexample.  With [exclude_masked_patterns = false] the line
    ["**** 4111111111111111"] gives a VISA match whose window
    [context_before + candidate + context_after] contains ["****"], which
    the masked pattern [\*{4,}] finds, yet its [is_masked] is [False]:
    [is_masked_number] returns [False] before testing any pattern. *)
Lemma is_masked_window_counterexample :
  match Detection.scan_text sample_db no_exclude_config (py "**** 4111111111111111") (py "f") with
  | Ok (m :: _) =>
      Detection.raw_match m = py "4111111111111111" /\
      Detection.is_masked m = false /\
      existsb (re_search sample_db
                 (Detection.context_before m ++ Detection.raw_match m ++ Detection.context_after m))
              (Detection.masked_regex sample_db) = true
  | _ => False
  end.
Proof. vm_compute. split; [reflexivity|split; reflexivity]. Qed.

(** C8 (amended).  Every match returned by [scan_text] has [is_masked =
    False], whatever the configuration: with [exclude_masked_patterns]
    false, [is_masked_number] returns [False] without testing; with it true,
    a line in which a masked pattern occurs is skipped, and a masked pattern
    occurring in a candidate's window also occurs in its line. *)
Theorem scan_text_is_masked_false : forall db cfg text fp ms,
  Detection.scan_text db cfg text fp = Ok ms ->
  Forall (fun m => Detection.is_masked m = false) ms.
Proof.
  intros db cfg text fp ms H. apply Forall_forall. intros m Hm.
  destruct (scan_text_origin db _ _ _ _ _ H Hm)
    as [ln [line [ct [pat [a [b [Hin [Hmask Hc]]]]]]]].
  destruct (scan_candidate_fields db _ _ _ _ _ _ _ _ Hc) as [_ ->].
  destruct (finditer_spans _ _ _ _ _ Hin) as [Hab Hb].
  apply is_masked_window_line; assumption.
Qed.

Lemma scan_text_is_masked_false_witness : exists ms,
  Detection.scan_text sample_db Detection.default_config (py "4111111111111111") (py "f") = Ok ms /\
  ms <> [] /\ Forall (fun m => Detection.is_masked m = false) ms.
Proof.
  destruct (Detection.scan_text sample_db Detection.default_config (py "4111111111111111") (py "f"))
    as [ms|e] eqn:E; [|vm_compute in E; discriminate].
  exists ms. split; [reflexivity|]. split.
  - vm_compute in E. injection E as <-. discriminate.
  - exact (scan_text_is_masked_false _ _ _ _ _ E).
Defined.

(* ------------------------------------------------------------------ *)
(** ** Findings of the report ([_process_findings]) *)

Lemma mapR_Forall2 : forall {A B} (f : A -> result B) l l',
  mapR f l = Ok l' -> Forall2 (fun a b => f a = Ok b) l l'.
Proof.
  intros A B f l. induction l as [|a l IH]; intros l' H; simpl in H.
  - injection H as <-. constructor.
  - destruct (f a) as [b|e] eqn:Ef; [|discriminate]. simpl in H.
    destruct (mapR f l) as [bs|e] eqn:Er; [|discriminate]. simpl in H.
    injection H as <-. constructor; auto.
Qed.

Lemma mapR_total : forall {A B} (f : A -> result B) l,
  (forall a, exists b, f a = Ok b) -> exists l', mapR f l = Ok l'.
Proof.
  intros A B f l Hf. induction l as [|a l IH]; simpl; [eauto|].
  destruct (Hf a) as [b ->]. destruct IH as [bs ->]. simpl. eauto.
Qed.

(** The replacement templates of [ReportGenerator] are valid. *)
Lemma report_sanitize_file_path_ok : forall db p,
  exists q, Report.sanitize_file_path db p = Ok q.
Proof. intros db p. eexists. reflexivity. Qed.

Lemma report_sanitize_context_ok : forall db c,
  exists q, Report.sanitize_context db c = Ok q.
Proof. intros db [|x c]; eexists; reflexivity. Qed.

Lemma process_finding_pan_data : forall db sha cfg m,
  exists f, Report.process_finding db sha cfg m = Ok f /\
    Json.getitem f (py "pan_data") = Ok (Report.pan_data sha cfg m).
Proof.
  intros db sha cfg m. unfold Report.process_finding.
  destruct (report_sanitize_file_path_ok db (Detection.file_path m)) as [fp ->].
  destruct (report_sanitize_context_ok db (Detection.context_before m)) as [b ->].
  destruct (report_sanitize_context_ok db (Detection.context_after m)) as [a ->].
  simpl. eexists. split; reflexivity.
Qed.

Lemma process_findings_Forall2 : forall db sha cfg ms fs,
  Report.process_findings db sha cfg ms = Ok fs ->
  Forall2 (fun m f => Json.getitem f (py "pan_data") = Ok (Report.pan_data sha cfg m)) ms fs.
Proof.
  intros db sha cfg ms fs H. apply mapR_Forall2 in H.
  eapply Forall2_impl; [|exact H]. intros m f Hf. simpl in Hf.
  destruct (process_finding_pan_data db sha cfg m) as [f' [Hf' Hpd]].
  rewrite Hf in Hf'. injection Hf' as <-. exact Hpd.
Qed.

Lemma pan_data_fields : forall sha cfg m,
  Json.getitem (Report.pan_data sha cfg m) (py "masked_number")
    = Ok (Json.JStr (Detection.masked_match m)) /\
  Json.getitem (Report.pan_data sha cfg m) (py "hash") = Ok (hash_of sha (Detection.raw_match m)) /\
  Json.contains (Report.pan_data sha cfg m) (py "full_number")
    = Ok (Detection.allow_full_pan_retention cfg && negb (Detection.redact_pan cfg)).
Proof.
  intros sha cfg m. unfold Report.pan_data.
  destruct (Detection.allow_full_pan_retention cfg && negb (Detection.redact_pan cfg));
    repeat split; destruct (Detection.raw_match m); reflexivity.
Qed.

(** C3.  [_process_findings] succeeds on every list of matches, and the
    [pan_data] of the finding of a match [m] has [masked_number] equal to
    [m.masked_match]; its [hash] is [sha256(m.raw_match)] when [raw_match]
    is non-empty and [None] when it is empty; it has a [full_number] key only
    if [allow_full_pan_retention] is true and [redact_pan] is false. *)
Theorem process_findings_pan_data_spec : forall db sha256_hex cfg matches,
  exists fs, Report.process_findings db sha256_hex cfg matches = Ok fs /\
  Forall2 (fun m f => exists pd,
      Json.getitem f (py "pan_data") = Ok pd /\
      Json.getitem pd (py "masked_number") = Ok (Json.JStr (Detection.masked_match m)) /\
      Json.getitem pd (py "hash") = Ok (hash_of sha256_hex (Detection.raw_match m)) /\
      (Json.contains pd (py "full_number") = Ok true ->
         Detection.allow_full_pan_retention cfg = true /\ Detection.redact_pan cfg = false))
    matches fs.
Proof.
  intros db sha cfg matches.
  destruct (mapR_total (Report.process_finding db sha cfg) matches) as [fs Hfs].
  { intros m. destruct (process_finding_pan_data db sha cfg m) as [f [Hf _]]. eauto. }
  exists fs. split; [exact Hfs|].
  eapply Forall2_impl; [|exact (process_findings_Forall2 db sha cfg matches fs Hfs)].
  intros m f Hpd. exists (Report.pan_data sha cfg m).
  destruct (pan_data_fields sha cfg m) as [H1 [H2 H3]].
  split; [exact Hpd|]. split; [exact H1|]. split; [exact H2|].
  rewrite H3. intros E. injection E as E.
  apply andb_true_iff in E as [E1 E2]. apply negb_true_iff in E2. auto.
Qed.

(* ------------------------------------------------------------------ *)
(** ** Raw PAN digits when retention is off *)

(** C1, counterexample.  With the default configuration
    ([allow_full_pan_retention = False]) the text
    ["4111111111111111 4111111111111111"] gives a first match whose
    [raw_match] is empty but whose [context_after] holds the second card
    number, and the finding made from it carries these digits in
    [context.after].  (The hash function plays no part: [raw_match] is
    empty, so no hash is computed.) *)
Lemma raw_digits_in_context_counterexample :
  match Detection.scan_text sample_db Detection.default_config
          (py "4111111111111111 4111111111111111") (py "f") with
  | Ok (m :: _) =>
      Detection.raw_match m = [] /\
      Detection.context_after m = py " 4111111111111111" /\
      (f <- Report.process_finding sample_db (fun _ => []) Detection.default_config m ;;
       c <- Json.getitem f (py "context") ;; Json.getitem c (py "after"))
        = Ok (Json.JStr (py " 4111111111111111"))
  | _ => False
  end.
Proof. vm_compute. split; [reflexivity|split; reflexivity]. Qed.

(** C1 (amended).  When [allow_full_pan_retention] is false, every match
    returned by [scan_text] has an empty [raw_match], and every finding that
    [_process_findings] makes from these matches has a [pan_data] object
    without [full_number] whose [hash] is [None].  (The [context_before]
    and [context_after] fields are copied from the line and may contain
    card digits.) *)
Theorem raw_match_empty_without_retention : forall db sha256_hex cfg text fp ms,
  Detection.allow_full_pan_retention cfg = false ->
  Detection.scan_text db cfg text fp = Ok ms ->
  Forall (fun m => Detection.raw_match m = []) ms /\
  (forall fs, Report.process_findings db sha256_hex cfg ms = Ok fs ->
   Forall (fun f => exists pd,
             Json.getitem f (py "pan_data") = Ok pd /\
             Json.contains pd (py "full_number") = Ok false /\
             Json.getitem pd (py "hash") = Ok Json.JNull) fs).
Proof.
  intros db sha cfg text fp ms Hallow H.
  assert (Hraw : Forall (fun m => Detection.raw_match m = []) ms).
  { apply Forall_forall. intros m Hm.
    destruct (scan_text_origin db _ _ _ _ _ H Hm)
      as [ln [line [ct [pat [a [b [_ [_ Hc]]]]]]]].
    destruct (scan_candidate_fields db _ _ _ _ _ _ _ _ Hc) as [Hr _].
    rewrite Hr, Hallow. reflexivity. }
  split; [exact Hraw|]. intros fs Hfs.
  pose proof (process_findings_Forall2 db sha cfg ms fs Hfs) as H2.
  clear H Hfs. induction H2 as [|m f ms fs Hpd _ IH]; [constructor|].
  inversion Hraw as [|m' ms' Hm Hms]; subst. constructor; [|exact (IH Hms)].
  exists (Report.pan_data sha cfg m). destruct (pan_data_fields sha cfg m) as [_ [Hh Hf]].
  split; [exact Hpd|]. rewrite Hf, Hallow. split; [reflexivity|].
  rewrite Hh, Hm. reflexivity.
Qed.

Lemma raw_match_empty_without_retention_witness : exists ms,
  Detection.scan_text sample_db Detection.default_config (py "4111111111111111") (py "f") = Ok ms /\
  ms <> [] /\ Forall (fun m => Detection.raw_match m = []) ms.
Proof.
  destruct (Detection.scan_text sample_db Detection.default_config (py "4111111111111111") (py "f"))
    as [ms|e] eqn:E; [|vm_compute in E; discriminate].
  exists ms. split; [reflexivity|]. split.
  - vm_compute in E. injection E as <-. discriminate.
  - exact (proj1 (raw_match_empty_without_retention sample_db (fun s => s) Detection.default_config
                     _ _ _ eq_refl E)).
Defined.

(* ------------------------------------------------------------------ *)
(** ** The report hash ([create_report]) *)

Lemma process_findings_ok : forall db sha cfg matches,
  exists fs, Report.process_findings db sha cfg matches = Ok fs.
Proof.
  intros db sha cfg matches. apply mapR_total. intros m.
  destruct (process_finding_pan_data db sha cfg m) as [f [Hf _]]. eauto.
Qed.

(** C7.  [create_report] returns a report [r]; clearing its
    [metadata.report_hash] (setting it to [""]) gives a report [r0], and the
    stored [metadata.report_hash] of [r] is the SHA-256 of
    [json.dumps(r0, sort_keys=True, default=str)]. *)
Theorem create_report_hash_check : forall db sha256_hex float_repr cfg agent_id scan_id operator
    matches scan_stats config_summary timestamp,
  exists r r0,
    Report.create_report db sha256_hex float_repr cfg agent_id scan_id operator matches
      scan_stats config_summary timestamp = Ok r /\
    Report.set_report_hash r [] = Ok r0 /\
    Report.report_hash_field r = Ok (Json.JStr (sha256_hex (Json.dumps float_repr true r0))).
Proof.
  intros db sha fr cfg aid sid op matches stats cs ts.
  destruct (process_findings_ok db sha cfg matches) as [fs Hfs].
  unfold Report.create_report. rewrite Hfs. cbn [rbind].
  eexists. eexists. split; [reflexivity|]. split; [reflexivity|]. reflexivity.
Qed.

(* ------------------------------------------------------------------ *)
(** ** The sensitive-data check of [send_report] *)

Lemma validate_report_sensitive : forall db fr report,
  Client.validate_report db fr report = Ok true ->
  Client.contains_sensitive_data db fr report = false.
Proof.
  intros db fr report H. unfold Client.validate_report in H.
  destruct (Client.all_in report _) as [[|]|e]; cbn [rbind negb] in H; try discriminate.
  destruct (Json.get report _ _) as [md|e]; cbn [rbind] in H; [|discriminate].
  destruct (Client.all_in md _) as [[|]|e]; cbn [rbind negb] in H; try discriminate.
  injection H as H. apply negb_true_iff in H. exact H.
Qed.

(** C2, counterexample.  A report whose JSON holds the Luhn-valid 16-digit
    run ["2011000000000003"] is posted and [send_report] returns [True]:
    runs starting with ["201"] or ["202"] are not checked.  (The report
    holds no float and its timestamp no ['T'], so [float_repr] and
    [iso_to_date] are never called.) *)
Lemma send_report_luhn_run_counterexample :
  let report := sample_client_report (py "ref 2011000000000003") in
  In (py "2011000000000003")
     (findall sample_db (u_lower sample_db (Json.dumps (fun _ => []) false report)) Client.pan_re) /\
  Client.run_luhn_ok (py "2011000000000003") = true /\
  exists posted,
    Client.send_report sample_db (fun _ => []) (fun _ => None) sample_client_config
      accepting_server report = (posted, true) /\ posted <> [].
Proof.
  intros report. split; [|split].
  - vm_compute. left. reflexivity.
  - reflexivity.
  - eexists. split.
    + vm_compute. reflexivity.
    + discriminate.
Qed.

(** C2 (amended).  If [re.findall(r'\b[0-9]{13,19}\b')] on the lower-cased
    [json.dumps(report)] finds a run of length at least 13 that starts with
    neither ["202"] nor ["201"] and passes the Luhn check, [send_report]
    posts nothing and returns [False] (no exception escapes it). *)
Theorem send_report_refuses_flagged_run : forall db float_repr iso_to_date cc server report pan,
  In pan (findall db (u_lower db (Json.dumps float_repr false report)) Client.pan_re) ->
  Client.flagged_run pan = true ->
  Client.send_report db float_repr iso_to_date cc server report = ([], false).
Proof.
  intros db fr iso cc server report pan Hin Hflag.
  assert (Hs : Client.contains_sensitive_data db fr report = true).
  { apply existsb_exists. exists pan. auto. }
  unfold Client.send_report.
  destruct (rbind _ _); [|reflexivity].
  destruct (Client.validate_report db fr report) as [[|]|e] eqn:V; try reflexivity.
  apply validate_report_sensitive in V. congruence.
Qed.

Lemma send_report_refuses_flagged_run_witness :
  Client.send_report sample_db (fun _ => []) (fun _ => None) sample_client_config accepting_server
    (sample_client_report (py "card 4111111111111111")) = ([], false).
Proof.
  apply (send_report_refuses_flagged_run _ _ _ _ _ _ (py "4111111111111111")).
  - vm_compute. left. reflexivity.
  - vm_compute. reflexivity.
Defined.

(* ------------------------------------------------------------------ *)
(** ** The Luhn check *)

(** [luhn_check] looks only at the characters for which [isdigit()] holds. *)
Lemma luhn_check_filter : forall db s,
  Detection.luhn_check db (filter (u_isdigit db) s) = Detection.luhn_check db s.
Proof.
  intros db s. unfold Detection.luhn_check.
  assert (E : forall l, filter (u_isdigit db) (filter (u_isdigit db) l) = filter (u_isdigit db) l).
  { induction l as [|c l IH]; simpl; [reflexivity|].
    destruct (u_isdigit db c) eqn:Ec; simpl; [rewrite Ec, IH|]; auto. }
  rewrite E. reflexivity.
Qed.

(** C4.  On the one-character string ["²"] (U+00B2), [luhn_check] raises
    [ValueError] instead of returning [False]: ['²'.isdigit()] is true, so
    the character is kept, and [int('²')] raises. *)
Theorem luhn_check_superscript_raises :
  Detection.luhn_check sample_db [178%N] = Raise ValueError.
Proof. reflexivity. Qed.

(* ------------------------------------------------------------------ *)
(** ** [scan_directories] *)

Section ScanDirs.
Import Scanner.
Variable A : Type.
Variables (walk : pystr -> list pystr) (scan_file : pystr -> list A)
          (stop_pass1 stop_loop stop_resubmit : nat -> bool) (pick : nat -> nat).

Lemma count_root_counting : forall mx paths af evs af' evs' b,
  Forall (fun e => is_counting e = true) evs ->
  count_root stop_pass1 mx paths af evs = (af', evs', b) ->
  Forall (fun e => is_counting e = true) evs'.
Proof.
  intros mx paths. induction paths as [|p rest IH]; intros af evs af' evs' b Hf H;
    cbn [count_root] in H.
  - injection H as _ <- _. exact Hf.
  - set (n := length (af ++ [p])) in H.
    set (evs2 := if n mod 1000 =? 0 then evs ++ [EvCounting n] else evs) in H.
    assert (Hf' : Forall (fun e => is_counting e = true) evs2).
    { unfold evs2. destruct (n mod 1000 =? 0); [|exact Hf].
      apply Forall_app. split; [exact Hf|repeat constructor]. }
    destruct (stop_pass1 n); [injection H as _ <- _; exact Hf'|].
    destruct (reached_max mx n); [injection H as _ <- _; exact Hf'|].
    exact (IH _ _ _ _ _ Hf' H).
Qed.

Lemma count_roots_counting : forall mx dirs af evs af' evs' b,
  Forall (fun e => is_counting e = true) evs ->
  count_roots walk stop_pass1 mx dirs af evs = (af', evs', b) ->
  Forall (fun e => is_counting e = true) evs'.
Proof.
  intros mx dirs. induction dirs as [|d rest IH]; intros af evs af' evs' b Hf H; simpl in H.
  - injection H as _ <- _. exact Hf.
  - destruct (count_root stop_pass1 mx (walk d) af evs) as [[af1 evs1] st] eqn:E.
    pose proof (count_root_counting _ _ _ _ _ _ _ Hf E) as Hf1.
    destruct st; [injection H as _ <- _; exact Hf1|].
    exact (IH _ _ _ _ _ Hf1 H).
Qed.

(** C6 (amended).  If [stop_requested] is already true at the first check
    of pass 2 (it stays true once set), [scan_directories] returns no match,
    and either no completion event was sent (a stop seen during pass 1, or
    no file found: every event is a counting event), or the last event is
    the completion event with [files_scanned = 0] and [matches_found = 0]
    (which the code marks [completed: True]; no event has a stopped
    status). *)
Theorem scan_stopped_before_pass2 : forall cfg dirs,
  0 < Detection.concurrency cfg ->
  stop_loop 0 = true ->
  exists evs,
    scan_directories A walk scan_file stop_pass1 stop_loop stop_resubmit pick cfg dirs
      = Ok ([], evs) /\
    (Forall (fun e => is_counting e = true) evs \/
     exists total, 0 < total /\ last evs (EvCounting 0) = EvComplete 0 total 0).
Proof.
  intros cfg dirs Hc Hstop. unfold scan_directories.
  destruct (count_roots walk stop_pass1 (Detection.max_files_per_scan cfg) dirs [] [EvCounting 0])
    as [[af evs1] st] eqn:E.
  assert (Hcount : Forall (fun e => is_counting e = true) evs1).
  { refine (count_roots_counting _ _ _ _ _ _ _ _ E). repeat constructor. }
  destruct st; [exists evs1; split; [reflexivity|left; exact Hcount]|].
  destruct (Nat.eqb_spec (length af) 0) as [Hz|Hnz];
    [exists evs1; split; [reflexivity|left; exact Hcount]|].
  destruct (Nat.eqb_spec (Detection.concurrency cfg) 0) as [Hc0|_]; [lia|].
  destruct (firstn (Nat.min (Detection.concurrency cfg * 2) (length af)) af) as [|f0 fs] eqn:F.
  - apply (f_equal (@length pystr)) in F. rewrite length_firstn in F. simpl in F. lia.
  - simpl. rewrite Hstop.
    eexists. split; [reflexivity|]. right. exists (length af). split; [lia|].
    rewrite last_last. reflexivity.
Qed.

End ScanDirs.

(** C6, counterexample.  With one root holding one file: a stop seen in
    pass 1 gives no completion event at all (the last event is the initial
    counting event); a stop set after pass 1 gives a last event
    [EvComplete 0 1 0], marked [completed: True], with no stopped status. *)
Lemma scan_stopped_counterexample :
  Scanner.scan_directories unit one_file_walk (fun _ => [tt]) (fun _ => true) (fun _ => true)
    (fun _ => true) (fun _ => 0) Detection.default_config [py "/home"]
    = Ok ([], [Scanner.EvCounting 0]) /\
  Scanner.scan_directories unit one_file_walk (fun _ => [tt]) (fun _ => false) (fun _ => true)
    (fun _ => true) (fun _ => 0) Detection.default_config [py "/home"]
    = Ok ([], [Scanner.EvCounting 0; Scanner.EvScanning 0 1 0; Scanner.EvComplete 0 1 0]).
Proof. split; vm_compute; reflexivity. Qed.

Lemma scan_stopped_before_pass2_witness : exists evs,
  Scanner.scan_directories unit one_file_walk (fun _ => [tt]) (fun _ => false) (fun _ => true)
    (fun _ => true) (fun _ => 0) Detection.default_config [py "/home"] = Ok ([], evs) /\
  (Forall (fun e => Scanner.is_counting e = true) evs \/
   exists total, 0 < total /\ last evs (Scanner.EvCounting 0) = Scanner.EvComplete 0 total 0).
Proof.
  apply (scan_stopped_before_pass2 unit one_file_walk (fun _ => [tt]) (fun _ => false)
           (fun _ => true) (fun _ => true) (fun _ => 0)).
  - simpl. lia.
  - reflexivity.
Defined.

(** C9.  With [max_files_per_scan = 1] and two roots holding one file each,
    pass 1 collects two paths and both are scanned: the [break] on the cap
    leaves only the loop over the current root. *)
Theorem max_files_exceeded :
  Scanner.pass1_files one_file_walk (fun _ => false) max_one_config [py "/a"; py "/b"]
    = [py "/a/card.txt"; py "/b/card.txt"] /\
  Scanner.scan_directories unit one_file_walk (fun _ => [tt]) (fun _ => false) (fun _ => false)
    (fun _ => false) (fun _ => 0) max_one_config [py "/a"; py "/b"]
    = Ok ([tt; tt], [Scanner.EvCounting 0; Scanner.EvScanning 0 2 0; Scanner.EvScanning 1 2 1;
                     Scanner.EvScanning 2 2 2; Scanner.EvComplete 2 2 2]).
Proof. split; vm_compute; reflexivity. Qed.

(* ================================================================== *)
(** * Further properties of the code *)

(* ------------------------------------------------------------------ *)
(** ** Static facts about the card patterns *)

Section PatternFacts.
Variable db : unicode_db.

Lemma lang_lengths : forall s r i j,
  lang db s r i j -> star_free r = true -> In (j - i) (match_lengths r).
Proof.
  intros s r i j H. induction H; cbn [match_lengths star_free In]; intros Hsf.
  - left. lia.
  - apply andb_prop in Hsf as [H1 H2].
    pose proof (lang_le _ _ _ _ _ H). pose proof (lang_le _ _ _ _ _ H0).
    apply in_flat_map. exists (j - i). split; [auto|].
    apply in_map_iff. exists (k - j). split; [lia|auto].
  - apply andb_prop in Hsf as [H1 H2]. apply in_or_app. auto.
  - apply andb_prop in Hsf as [H1 H2]. apply in_or_app. auto.
  - discriminate.
  - discriminate.
  - left. lia.
  - left. lia.
Qed.

Lemma lang_tail_wordb : forall s r i j,
  lang db s r i j -> tail_wordb r = true -> at_boundary db s j = true.
Proof.
  intros s r i j H. induction H; cbn [tail_wordb]; intros Ht; try discriminate; auto.
  - apply andb_prop in Ht as [H1 H2]. auto.
  - apply andb_prop in Ht as [H1 H2]. auto.
Qed.


Lemma compiled_patterns_star_free : forall ct r,
  In (ct, r) (Detection.compiled_patterns db) -> star_free r = true.
Proof. intros ct r H. repeat (destruct H as [H|H]; [injection H as <- <-; reflexivity|]). destruct H. Qed.

Lemma compiled_patterns_lengths : forall ct r n,
  In (ct, r) (Detection.compiled_patterns db) -> In n (match_lengths r) -> In n (card_lengths ct).
Proof.
  intros ct r n H Hn.
  repeat (destruct H as [H|H]; [injection H as <- <-; vm_compute in Hn; simpl; intuition|]).
  destruct H.
Qed.



End PatternFacts.

(* ------------------------------------------------------------------ *)
(** ** [PANDetector.detect_card_type] *)

(** Inside a string of word characters, [\\b] only holds at its ends. *)
Lemma wordb_inside_words : forall db (d : pystr) e,
  (forall c, In c d -> u_isword db c = true) ->
  0 < e -> e <= length d -> at_boundary db d e = true -> e = length d.
Proof.
  intros db d e Hw He Hle Hb.
  destruct (Nat.eq_dec e (length d)) as [|Hne]; [assumption|exfalso].
  unfold at_boundary, is_word_at in Hb. destruct e as [|e']; [lia|].
  destruct (nth_error d e') as [c1|] eqn:E1;
    [|apply nth_error_None in E1; lia].
  destruct (nth_error d (S e')) as [c2|] eqn:E2;
    [|apply nth_error_None in E2; lia].
  rewrite (Hw c1 (nth_error_In _ _ E1)), (Hw c2 (nth_error_In _ _ E2)) in Hb.
  discriminate.
Qed.

Lemma match_at_lang : forall db s r i e,
  match_at db s r i = Some e -> lang db s r i e.
Proof.
  intros db s r i e H. unfold match_at in H. apply bt_sound in H as [j [Hj Hk]].
  injection Hk as <-. exact Hj.
Qed.

(** [detect_card_type] names a brand only for a digit count of that brand
    (after [re.sub(r'\\D', '', pan)]): 13 or 16 digits for VISA, 15 for
    AMEX, 16 for DISCOVER, 14 for DINERS, 15 or 16 for JCB, 16 for the
    second Mastercard alternative and 16 or more for the first one, which
    has no closing [\\b].  In particular a string with fewer than 13 digits
    is [UNKNOWN].  (Python's decimal digits are word characters.) *)
Theorem detect_card_type_lengths : forall db pan,
  (forall c, re_digit db c = true -> u_isword db c = true) ->
  let n := length (filter (re_digit db) pan) in
  let ct := Detection.detect_card_type db pan in
  ct = Detection.UNKNOWN \/ In n (card_lengths ct) \/ (ct = Detection.MASTERCARD /\ 16 <= n).
Proof.
  intros db pan Hw n ct. subst n ct. unfold Detection.detect_card_type.
  set (d := filter (re_digit db) pan).
  assert (Hd : forall c, In c d -> u_isword db c = true).
  { intros c Hc. apply Hw. unfold d in Hc. apply filter_In in Hc. apply Hc. }
  destruct (find _ (Detection.compiled_patterns db)) as [[ct r]|] eqn:F; [|left; reflexivity].
  right. apply find_some in F as [Hin Hf]. cbn beta iota in Hf.
  destruct (match_at db d r 0) as [e|] eqn:Em; [|discriminate].
  apply match_at_lang in Em.
  assert (Hlen : forall r', lang db d r' 0 e -> star_free r' = true ->
            (forall m, In m (match_lengths r') -> In m (card_lengths ct)) ->
            In e (card_lengths ct)).
  { intros r' Hl Hsf Hm. apply Hm. replace e with (e - 0) by lia.
    exact (lang_lengths db _ _ _ _ Hl Hsf). }
  assert (Hpos : forall m, In m (card_lengths ct) -> 13 <= m).
  { intros m Hm. destruct ct; simpl in Hm; intuition lia. }
  assert (Hend : forall r', lang db d r' 0 e -> tail_wordb r' = true -> 0 < e -> e = length d).
  { intros r' Hl Ht He. apply (wordb_inside_words db d e Hd He).
    - destruct (lang_bound db _ _ _ _ Hl); lia.
    - exact (lang_tail_wordb db _ _ _ _ Hl Ht). }
  pose proof (compiled_patterns_star_free db _ _ Hin) as Hsf.
  pose proof (Hlen r Em Hsf (fun m Hm => compiled_patterns_lengths db _ _ m Hin Hm)) as He.
  pose proof (Hpos _ He) as He13.
  destruct Hin as [H|[H|[H|[H|[H|[H|[]]]]]]]; injection H as <- <-;
    try (left; rewrite <- (Hend _ Em eq_refl); [exact He|lia]).
  (* Mastercard *)
  inversion Em as [| |r1 r2 i j Hl|r1 r2 i j Hl| | | |]; subst.
  - right. split; [reflexivity|].
    pose proof (lang_lengths db _ _ _ _ Hl eq_refl) as H1.
    rewrite Nat.sub_0_r in H1. change (In e [16]) in H1.
    destruct H1 as [H1|[]]. destruct (lang_bound db _ _ _ _ Hl); lia.
  - left. rewrite <- (Hend _ Hl eq_refl); [exact He|lia].
Qed.

Lemma detect_card_type_lengths_witness :
  Detection.detect_card_type sample_db (py "4111 1111 1111 1111") = Detection.VISA /\
  (Detection.detect_card_type sample_db (py "4111 1111 1111 1111") = Detection.UNKNOWN \/
   In (length (filter (re_digit sample_db) (py "4111 1111 1111 1111")))
      (card_lengths (Detection.detect_card_type sample_db (py "4111 1111 1111 1111"))) \/
   (Detection.detect_card_type sample_db (py "4111 1111 1111 1111") = Detection.MASTERCARD /\
    16 <= length (filter (re_digit sample_db) (py "4111 1111 1111 1111")))).
Proof.
  split; [vm_compute; reflexivity|].
  apply (detect_card_type_lengths sample_db (py "4111 1111 1111 1111")).
  intros c. unfold re_digit. simpl. destruct (is_ascii_digit c); simpl; [reflexivity|discriminate].
Defined.

(* ------------------------------------------------------------------ *)
(** ** [PANDetector.scan_text]: what every emitted match satisfies *)

Lemma mapR_total_In : forall {A B} (f : A -> result B) l,
  (forall a, In a l -> exists b, f a = Ok b) -> exists l', mapR f l = Ok l'.
Proof.
  intros A B f l Hf. induction l as [|a l IH]; simpl; [eauto|].
  destruct (Hf a (or_introl eq_refl)) as [b ->].
  destruct IH as [bs ->]; [intros x Hx; apply Hf; right; exact Hx|]. simpl. eauto.
Qed.

Lemma mapR_const : forall {A B} (f : A -> result B) l y,
  (forall a, In a l -> f a = Ok y) -> mapR f l = Ok (map (fun _ => y) l).
Proof.
  intros A B f l y Hf. induction l as [|a l IH]; simpl; [reflexivity|].
  rewrite (Hf a (or_introl eq_refl)). simpl.
  rewrite IH; [reflexivity|]. intros x Hx. apply Hf. right. exact Hx.
Qed.

Lemma length_filter_firstn : forall {A} (p : A -> bool) n l,
  length (filter p (firstn n l)) <= length (filter p l).
Proof.
  intros A p n. induction n as [|n IH]; intros l; simpl; [lia|].
  destruct l as [|x l]; simpl; [lia|]. destruct (p x); simpl; specialize (IH l); lia.
Qed.

Lemma length_filter_skipn : forall {A} (p : A -> bool) n l,
  length (filter p (skipn n l)) <= length (filter p l).
Proof.
  intros A p n. induction n as [|n IH]; intros l; simpl; [lia|].
  destruct l as [|x l]; simpl; [lia|]. destruct (p x); simpl; specialize (IH l); lia.
Qed.

Lemma length_filter_py_slice : forall {p : N -> bool} s a b,
  length (filter p (py_slice s a b)) <= length (filter p s).
Proof.
  intros p s a b. unfold py_slice.
  etransitivity; [apply length_filter_firstn|apply length_filter_skipn].
Qed.




(** [calculate_confidence] is clamped to [0, 1]. *)
Lemma qmin_le_r : forall a b, (Detection.qmin a b <= b)%Q.
Proof.
  intros a b. unfold Detection.qmin. destruct (Qle_bool a b) eqn:E; simpl.
  - apply Qle_bool_iff. exact E.
  - apply Qle_refl.
Qed.

Lemma qmin_ge : forall a b c, (c <= a)%Q -> (c <= b)%Q -> (c <= Detection.qmin a b)%Q.
Proof. intros a b c Ha Hb. unfold Detection.qmin. destruct (Qle_bool a b); assumption. Qed.

Lemma qmax_ge_r : forall a b, (b <= Detection.qmax a b)%Q.
Proof.
  intros a b. unfold Detection.qmax. destruct (Qle_bool b a) eqn:E; simpl.
  - apply Qle_bool_iff. exact E.
  - apply Qle_refl.
Qed.

Section ScanFields.
Import Detection.
Variable db : unicode_db.

Lemma scan_line_origin2 : forall cfg fp ln line ms m,
  scan_line db cfg fp ln line = Ok ms -> In m ms ->
  exists ct pat a b, In (ct, pat) (compiled_patterns db) /\ In (a, b) (finditer db line pat) /\
    scan_candidate db cfg fp ln line ct (a, b) = Ok (Some m).
Proof.
  intros cfg fp ln line ms m H Hm. unfold scan_line in H.
  destruct (is_masked_number db cfg line).
  - injection H as <-. contradiction.
  - destruct (mapR _ (compiled_patterns db)) as [per_type|e] eqn:E; [|discriminate].
    simpl in H. injection H as <-.
    apply in_concat in Hm as [l [Hl Hml]].
    destruct (mapR_In _ _ _ _ E Hl) as [[ct pat] [Hin Hct]].
    destruct (mapR _ (finditer db line pat)) as [found|e] eqn:E2; [|discriminate].
    simpl in Hct. injection Hct as <-.
    apply in_flat_map in Hml as [o [Ho Hmo]].
    destruct o as [m'|]; [|contradiction]. destruct Hmo as [<-|[]].
    destruct (mapR_In _ _ _ _ E2 Ho) as [[a b] [Hab Hc]].
    exists ct, pat, a, b. auto.
Qed.

Lemma scan_lines_origin2 : forall cfg fp lines ln ms m,
  scan_lines db cfg fp ln lines = Ok ms -> In m ms ->
  exists k line ct pat a b, nth_error lines k = Some line /\
    In (ct, pat) (compiled_patterns db) /\ In (a, b) (finditer db line pat) /\
    scan_candidate db cfg fp (ln + k) line ct (a, b) = Ok (Some m).
Proof.
  intros cfg fp lines. induction lines as [|line rest IH]; intros ln ms m H Hm; simpl in H.
  - injection H as <-. contradiction.
  - destruct (scan_line db cfg fp ln line) as [here|e] eqn:E1; [|discriminate]. simpl in H.
    destruct (scan_lines db cfg fp (S ln) rest) as [later|e] eqn:E2; [|discriminate].
    simpl in H. injection H as <-. apply in_app_or in Hm as [Hm|Hm].
    + destruct (scan_line_origin2 _ _ _ _ _ _ E1 Hm) as [ct [pat [a [b Hx]]]].
      exists 0, line, ct, pat, a, b. rewrite Nat.add_0_r. auto.
    + destruct (IH _ _ _ E2 Hm) as [k [l [ct [pat [a [b [Hk Hx]]]]]]].
      exists (S k), l, ct, pat, a, b. rewrite <- Nat.add_succ_comm. auto.
Qed.

Lemma scan_candidate_some : forall cfg fp ln line ct a b m,
  scan_candidate db cfg fp ln line ct (a, b) = Ok (Some m) ->
  file_path m = fp /\ line_number m = ln /\ column_start m = a /\ column_end m = b /\
  card_type m = ct /\
  masked_match m = mask_pan (filter (re_digit db) (py_slice line a b)) (show_last4_only cfg) /\
  13 <= length (filter (re_digit db) (py_slice line a b)) /\
  (require_luhn_validation cfg = true -> luhn_valid m = true) /\
  (exists context, confidence_score m = calculate_confidence db ct (luhn_valid m) context (is_masked m)) /\
  qlt (confidence_score m) (minimum_confidence_score cfg) = false /\
  length (context_before m) <= 50 /\ length (context_after m) <= 50.
Proof.
  intros cfg fp ln line ct a b m H. unfold scan_candidate in H.
  destruct (Nat.ltb_spec (length (filter (re_digit db) (py_slice line a b))) 13) as [Hlt|H13];
    [discriminate|].
  destruct (19 <? _); [discriminate|]. cbn [orb] in H.
  destruct (luhn_check db _) as [lv|e]; [|discriminate]. cbn [rbind] in H.
  destruct (require_luhn_validation cfg && negb lv) eqn:El; [discriminate|].
  destruct (qlt _ _) eqn:Eq; [discriminate|].
  injection H as <-.
  do 6 (split; [reflexivity|]). split; [exact H13|]. split.
  - intros Hr. rewrite Hr in El. destruct lv; [reflexivity|discriminate].
  - split; [eexists; reflexivity|]. split; [exact Eq|].
    cbn [context_before context_after]. split.
    + destruct (Nat.ltb_spec 50 (length (py_slice line (a - context_window_chars cfg) a)));
        [rewrite length_skipn|]; lia.
    + set (l := py_slice line b (Nat.min (length line) (b + context_window_chars cfg))).
      destruct (Nat.ltb_spec 50 (length l));
        [change (length (firstn 50 l) <= 50); rewrite length_firstn|]; lia.
Qed.

End ScanFields.

Lemma length_filter_le : forall {A} (p : A -> bool) l, length (filter p l) <= length l.
Proof. intros A p l. induction l as [|x l IH]; simpl; [lia|]. destruct (p x); simpl; lia. Qed.

Lemma luhn_check_decimal_ok : forall db l,
  (forall c, In c l -> re_digit db c = true) -> exists b, Detection.luhn_check db l = Ok b.
Proof.
  intros db l Hl. unfold Detection.luhn_check.
  destruct (mapR_total_In (Detection.py_int_char db) (filter (u_isdigit db) l)) as [ds Hds].
  - intros c Hc. apply filter_In in Hc as [Hc _]. specialize (Hl c Hc).
    unfold re_digit in Hl. unfold Detection.py_int_char.
    destruct (u_decimal db c); [eauto|discriminate].
  - rewrite Hds. cbn [rbind]. destruct (_ || _); eauto.
Qed.

Lemma scan_candidate_total : forall db cfg fp ln line ct span,
  exists o, Detection.scan_candidate db cfg fp ln line ct span = Ok o.
Proof.
  intros db cfg fp ln line ct [a b]. unfold Detection.scan_candidate.
  destruct (_ || _); [eauto|].
  destruct (luhn_check_decimal_ok db (filter (re_digit db) (py_slice line a b))) as [lv ->].
  - intros c Hc. apply filter_In in Hc. apply Hc.
  - cbn [rbind]. destruct (_ && _); [eauto|]. destruct (Detection.qlt _ _); eauto.
Qed.

(** [scan_text] never raises, whatever the text and the configuration:
    [luhn_check] is only given the [\\d] characters of a candidate, and
    [int()] accepts each of them. *)
Theorem scan_text_total : forall db cfg text file_path,
  exists ms, Detection.scan_text db cfg text file_path = Ok ms.
Proof.
  intros db cfg text fp. unfold Detection.scan_text.
  generalize 1. induction (py_split text 10) as [|line rest IH]; intros ln; simpl; [eauto|].
  assert (Hl : exists here, Detection.scan_line db cfg fp ln line = Ok here).
  { unfold Detection.scan_line. destruct (Detection.is_masked_number db cfg line); [eauto|].
    destruct (mapR_total_In (fun '(ct, pattern) =>
                  found <- mapR (Detection.scan_candidate db cfg fp ln line ct)
                                (finditer db line pattern) ;;
                  Ok (flat_map Detection.option_list found))
                (Detection.compiled_patterns db)) as [per_type ->].
    - intros [ct pat] _.
      destruct (mapR_total_In (Detection.scan_candidate db cfg fp ln line ct)
                  (finditer db line pat)) as [found ->].
      + intros span _. apply scan_candidate_total.
      + simpl. eauto.
    - simpl. eauto. }
  destruct Hl as [here ->]. destruct (IH (S ln)) as [later ->]. simpl. eauto.
Qed.

Lemma calculate_confidence_unit : forall db card_type luhn_valid context is_masked,
  (0 <= Detection.calculate_confidence db card_type luhn_valid context is_masked <= 1)%Q.
Proof.
  intros db ct lv ctx im. unfold Detection.calculate_confidence.
  split; [|apply qmin_le_r].
  apply qmin_ge; [apply qmax_ge_r|discriminate].
Qed.

(** [PANDetector.calculate_confidence] always lies in [0, 1]. *)
Theorem calculate_confidence_bounds : forall db card_type luhn_valid context is_masked,
  (0 <= Detection.calculate_confidence db card_type luhn_valid context is_masked <= 1)%Q.
Proof. exact calculate_confidence_unit. Qed.

(** Every match [scan_text(text, file_path)] returns carries [file_path],
    a line number between 1 and the number of lines of the text, a span of
    at least 13 characters, a confidence between [minimum_confidence_score]
    and 1, [luhn_valid = True] when [require_luhn_validation] is set, and
    contexts of at most 50 characters. *)
Theorem scan_text_match_fields : forall db cfg text file_path ms,
  Detection.scan_text db cfg text file_path = Ok ms ->
  Forall (fun m =>
    Detection.file_path m = file_path /\
    1 <= Detection.line_number m <= length (py_split text 10) /\
    Detection.column_start m + 13 <= Detection.column_end m /\
    (Detection.minimum_confidence_score cfg <= Detection.confidence_score m <= 1)%Q /\
    (Detection.require_luhn_validation cfg = true -> Detection.luhn_valid m = true) /\
    length (Detection.context_before m) <= 50 /\ length (Detection.context_after m) <= 50) ms.
Proof.
  intros db cfg text fp ms H. apply Forall_forall. intros m Hm.
  destruct (scan_lines_origin2 db _ _ _ _ _ _ H Hm)
    as [k [line [ct [pat [a [b [Hk [Hin [Hab Hc]]]]]]]]].
  destruct (scan_candidate_some db _ _ _ _ _ _ _ _ Hc)
    as [Hfp [Hln [Hcs [Hce [Hct [Hmm [H13 [Hlv [[ctx Hconf] [Hq [Hb Ha]]]]]]]]]]].
  assert (Hk' : k < length (py_split text 10)) by (apply nth_error_Some; congruence).
  split; [exact Hfp|]. split; [lia|]. split.
  - rewrite Hcs, Hce.
    pose proof (length_filter_le (re_digit db) (py_slice line a b)).
    assert (length (py_slice line a b) <= b - a) by (unfold py_slice; rewrite length_firstn; lia).
    lia.
  - split; [|auto]. split.
    + unfold Detection.qlt in Hq. apply negb_false_iff, Qle_bool_iff in Hq. exact Hq.
    + rewrite Hconf. apply calculate_confidence_unit.
Qed.

Lemma scan_text_match_fields_witness : exists ms,
  Detection.scan_text sample_db Detection.default_config (py "card 4111111111111111") (py "f")
    = Ok ms /\ ms <> [] /\
  Forall (fun m =>
    Detection.file_path m = py "f" /\
    1 <= Detection.line_number m <= length (py_split (py "card 4111111111111111") 10) /\
    Detection.column_start m + 13 <= Detection.column_end m /\
    (Detection.minimum_confidence_score Detection.default_config <= Detection.confidence_score m <= 1)%Q /\
    (Detection.require_luhn_validation Detection.default_config = true ->
       Detection.luhn_valid m = true) /\
    length (Detection.context_before m) <= 50 /\ length (Detection.context_after m) <= 50) ms.
Proof.
  destruct (Detection.scan_text sample_db Detection.default_config (py "card 4111111111111111")
              (py "f")) as [ms|e] eqn:E; [|vm_compute in E; discriminate].
  exists ms. split; [reflexivity|]. split.
  - vm_compute in E. injection E as <-. discriminate.
  - exact (scan_text_match_fields _ _ _ _ _ E).
Defined.



(** A text none of whose lines holds 13 [\\d] characters yields no match
    (and no exception). *)
Theorem scan_text_few_digits : forall db cfg text file_path,
  Forall (fun line => length (filter (re_digit db) line) < 13) (py_split text 10) ->
  Detection.scan_text db cfg text file_path = Ok [].
Proof.
  intros db cfg text fp H. unfold Detection.scan_text.
  generalize 1. induction H as [|line rest Hline Hrest IH]; intros ln; simpl; [reflexivity|].
  assert (Hl : Detection.scan_line db cfg fp ln line = Ok []).
  { unfold Detection.scan_line. destruct (Detection.is_masked_number db cfg line); [reflexivity|].
    rewrite (mapR_const _ _ []); [reflexivity|].
    intros [ct pat] _.
    rewrite (mapR_const _ _ None).
    - simpl. f_equal. induction (finditer db line pat); simpl; auto.
    - intros [a b] _. unfold Detection.scan_candidate.
      pose proof (@length_filter_py_slice (re_digit db) line a b).
      destruct (Nat.ltb_spec (length (filter (re_digit db) (py_slice line a b))) 13);
        [reflexivity|lia]. }
  rewrite Hl, IH. reflexivity.
Qed.

Lemma scan_text_few_digits_witness :
  Detection.scan_text sample_db Detection.default_config (py "call 555-0100 ext 42") (py "f")
    = Ok [].
Proof.
  apply scan_text_few_digits. vm_compute. repeat constructor; lia.
Defined.

(* ------------------------------------------------------------------ *)
(** ** [PANDetector.luhn_check] *)

Lemma mapR_app : forall {A B} (f : A -> result B) l1 l2,
  mapR f (l1 ++ l2) = (r1 <- mapR f l1 ;; r2 <- mapR f l2 ;; Ok (r1 ++ r2)).
Proof.
  intros A B f l1 l2. induction l1 as [|a l1 IH]; simpl.
  - destruct (mapR f l2); reflexivity.
  - destruct (f a); simpl; [|reflexivity]. rewrite IH.
    destruct (mapR f l1); simpl; [|reflexivity]. destruct (mapR f l2); reflexivity.
Qed.

Lemma mapR_raise_iff : forall {A B} (f : A -> result B) l,
  (exists e, mapR f l = Raise e) <-> Exists (fun a => exists e, f a = Raise e) l.
Proof.
  intros A B f l. induction l as [|a l IH]; simpl.
  - split; [intros [e H]; discriminate|intros H; inversion H].
  - rewrite Exists_cons. destruct (f a) as [b|e] eqn:Ef; simpl.
    + rewrite <- IH. destruct (mapR f l) as [bs|e]; simpl.
      * split; [intros [e H]; discriminate|intros [[e H]|[e H]]; discriminate].
      * split; [intros [e' H]; right; eauto|intros _; eauto].
    + split; [intros _; left; eauto|intros _; eauto].
Qed.

Lemma Exists_filter_iff : forall {A} (P : A -> Prop) (q : A -> bool) l,
  Exists P (filter q l) <-> Exists (fun x => q x = true /\ P x) l.
Proof.
  intros A P q l. induction l as [|x l IH]; simpl.
  - split; intros H; inversion H.
  - destruct (q x) eqn:Eq; rewrite ?Exists_cons, IH; intuition congruence.
Qed.

(** [luhn_check] raises exactly when the string holds a character for
    which [isdigit()] holds but [int()] raises (such as ['²']), and the
    exception is then [ValueError]; on every other string it returns. *)
Theorem luhn_check_raises_iff : forall db card_number,
  ((exists e, Detection.luhn_check db card_number = Raise e) <->
   Exists (fun c => u_isdigit db c = true /\ u_decimal db c = None) card_number) /\
  (forall e, Detection.luhn_check db card_number = Raise e -> e = ValueError).
Proof.
  intros db s. unfold Detection.luhn_check.
  assert (Hr : forall m : result (list nat),
    (exists e, (digits <- m ;;
       if (length digits <? 13) || (19 <? length digits) then Ok false
       else Ok (Detection.luhn_sum (length digits mod 2) 0 digits mod 10 =? 0)) = Raise e)
    <-> exists e, m = Raise e).
  { intros [ds|e]; simpl.
    - destruct (_ || _); split; intros [e H]; discriminate.
    - split; eauto. }
  split.
  - rewrite Hr, mapR_raise_iff, Exists_filter_iff.
    split; apply Exists_impl; intros c [Hd Hc]; split; auto;
      unfold Detection.py_int_char in *; destruct (u_decimal db c);
      try discriminate; eauto; destruct Hc; discriminate.
  - intros e. 
    assert (He : forall l e, mapR (Detection.py_int_char db) l = Raise e -> e = ValueError).
    { intros l. induction l as [|c l IH]; intros e' H; simpl in H; [discriminate|].
      unfold Detection.py_int_char at 1 in H.
      destruct (u_decimal db c); simpl in H; [|congruence].
      destruct (mapR _ l) eqn:E; simpl in H; [discriminate|]. injection H as <-. eauto. }
    destruct (mapR _ _) as [ds|e'] eqn:E; simpl.
    + destruct (_ || _); discriminate.
    + intros H. injection H as <-. eauto.
Qed.

Lemma luhn_sum_app : forall parity l1 l2 i,
  Detection.luhn_sum parity i (l1 ++ l2)
  = Detection.luhn_sum parity i l1 + Detection.luhn_sum parity (i + length l1) l2.
Proof.
  intros parity l1 l2. induction l1 as [|d l1 IH]; intros i; simpl.
  - rewrite Nat.add_0_r. reflexivity.
  - rewrite IH. replace (S i + length l1) with (i + S (length l1)) by lia. lia.
Qed.

(** One digit's share of the Luhn sum, doubled or not, determines the
    digit modulo 10. *)
Lemma luhn_digit_injective : forall (dbl : bool) v v', v < 10 -> v' < 10 ->
  (if dbl then (if 9 <? v * 2 then v * 2 - 9 else v * 2) else v) mod 10 =
  (if dbl then (if 9 <? v' * 2 then v' * 2 - 9 else v' * 2) else v') mod 10 -> v = v'.
Proof.
  intros dbl v v' Hv Hv'.
  assert (Hall : forallb (fun v => forallb (fun v' =>
            negb ((if dbl then (if 9 <? v * 2 then v * 2 - 9 else v * 2) else v) mod 10 =?
                  (if dbl then (if 9 <? v' * 2 then v' * 2 - 9 else v' * 2) else v') mod 10)
            || (v =? v')) (seq 0 10)) (seq 0 10) = true) by (destruct dbl; reflexivity).
  rewrite forallb_forall in Hall. specialize (Hall v ltac:(apply in_seq; lia)).
  rewrite forallb_forall in Hall. specialize (Hall v' ltac:(apply in_seq; lia)).
  intros Heq. rewrite Heq, Nat.eqb_refl in Hall. simpl in Hall. apply Nat.eqb_eq. exact Hall.
Qed.

(** The Luhn check detects every single-digit error: replacing one ASCII
    digit of a string that passes [luhn_check] by another ASCII digit gives
    a string that fails it. *)
Theorem luhn_check_single_digit_error : forall db s1 s2 c c',
  db_ascii_ok db -> is_ascii_digit c = true -> is_ascii_digit c' = true -> c <> c' ->
  Detection.luhn_check db (s1 ++ c :: s2) = Ok true ->
  Detection.luhn_check db (s1 ++ c' :: s2) = Ok false.
Proof.
  intros db s1 s2 c c' Hdb Hc Hc' Hne H.
  assert (Hasc : forall x, is_ascii_digit x = true -> (x < 128)%N /\ (48 <= x <= 57)%N).
  { intros x Hx. unfold is_ascii_digit in Hx. apply andb_prop in Hx as [H1 H2].
    apply N.leb_le in H1, H2. lia. }
  destruct (Hasc c Hc) as [Hc128 Hcr]. destruct (Hasc c' Hc') as [Hc'128 Hc'r].
  unfold Detection.luhn_check in *. rewrite filter_app in *. simpl filter in *.
  rewrite (ok_digit db Hdb c Hc128), Hc in H. rewrite (ok_digit db Hdb c' Hc'128), Hc'.
  rewrite mapR_app in *. simpl mapR in *.
  unfold Detection.py_int_char at 2 in H. unfold Detection.py_int_char at 2.
  rewrite (ok_decimal db Hdb c Hc128), Hc in H. rewrite (ok_decimal db Hdb c' Hc'128), Hc'.
  destruct (mapR _ (filter (u_isdigit db) s1)) as [d1|e]; cbn [rbind] in *; [|discriminate].
  destruct (mapR _ (filter (u_isdigit db) s2)) as [d2|e]; cbn [rbind] in *; [|discriminate].
  rewrite !length_app in *. cbn [length] in *.
  destruct (_ || _); [discriminate|].
  injection H as H. apply Nat.eqb_eq in H. f_equal. apply Nat.eqb_neq. intros H'.
  rewrite luhn_sum_app in H, H'. cbn [Detection.luhn_sum] in H, H'.
  set (p := (length d1 + S (length d2)) mod 2) in *.
  set (A := Detection.luhn_sum p 0 d1) in *.
  set (B := Detection.luhn_sum p (S (0 + length d1)) d2) in *.
  set (v := N.to_nat (c - 48)) in *. set (v' := N.to_nat (c' - 48)) in *.
  assert (Hv : v < 10) by (unfold v; lia). assert (Hv' : v' < 10) by (unfold v'; lia).
  assert (Hvv : v <> v') by (unfold v, v'; lia).
  apply Hvv. apply (luhn_digit_injective ((0 + length d1) mod 2 =? p) v v' Hv Hv').
  set (x := if (0 + length d1) mod 2 =? p then _ else v) in *.
  set (y := if (0 + length d1) mod 2 =? p then _ else v') in *.
  assert (HX : (A + (x + B)) mod 10 = 0) by exact H. clear H.
  pose proof (Nat.div_mod_eq (A + (x + B)) 10). pose proof (Nat.div_mod_eq (A + (y + B)) 10).
  pose proof (Nat.div_mod_eq x 10). pose proof (Nat.div_mod_eq y 10).
  pose proof (Nat.mod_upper_bound x 10 ltac:(lia)). pose proof (Nat.mod_upper_bound y 10 ltac:(lia)).
  lia.
Qed.

Lemma luhn_check_single_digit_error_witness :
  Detection.luhn_check sample_db (py "4111 1111 1111 1111") = Ok true /\
  Detection.luhn_check sample_db (py "4111 1111 1111 1112") = Ok false.
Proof.
  split; [vm_compute; reflexivity|].
  apply (luhn_check_single_digit_error sample_db (py "4111 1111 1111 111") [] 49%N 50%N
           sample_db_ok eq_refl eq_refl).
  - discriminate.
  - vm_compute. reflexivity.
Defined.

(* ------------------------------------------------------------------ *)
(** ** report_generator.py *)

(** [_calculate_priority]: a Luhn-valid unmasked finding is always
    ["critical"]; a Luhn-invalid masked finding never is; and the priority
    is ["low"] exactly for a Luhn-invalid, masked finding of confidence at
    most 0.8 whose brand is not VISA, Mastercard or AMEX. *)
Theorem calculate_priority_levels : forall m,
  (Detection.luhn_valid m = true -> Detection.is_masked m = false ->
     Report.calculate_priority m = py "critical") /\
  (Detection.luhn_valid m = false -> Detection.is_masked m = true ->
     Report.calculate_priority m <> py "critical") /\
  (Report.calculate_priority m = py "low" <->
     Detection.luhn_valid m = false /\ Detection.is_masked m = true /\
     Detection.qlt (8 # 10) (Detection.confidence_score m) = false /\
     Report.is_major (Detection.card_type m) = false).
Proof.
  intros m. unfold Report.calculate_priority.
  destruct (Detection.luhn_valid m), (Detection.is_masked m),
    (Detection.qlt (8 # 10) (Detection.confidence_score m)), (Report.is_major (Detection.card_type m));
    cbn; intuition discriminate.
Qed.

Lemma json_int_sum_set : forall kvs k z,
  json_int_sum (Json.set_kvs kvs k (Json.JInt z))
  = (json_int_sum kvs - match Json.kv_get kvs k (Json.JInt 0) with Json.JInt z' => z' | _ => 0 end
     + z)%Z.
Proof.
  intros kvs k z. induction kvs as [|[k' v'] rest IH]; simpl.
  - unfold Json.kv_get. simpl. lia.
  - unfold Json.kv_get in *. simpl. destruct (pystr_eqb k' k); simpl.
    + destruct v'; lia.
    + rewrite IH. lia.
Qed.

Lemma count_by_card_type_sum : forall ms,
  json_int_sum (Report.count_by_card_type ms) = Z.of_nat (length ms).
Proof.
  intros ms. unfold Report.count_by_card_type.
  assert (H : forall acc, json_int_sum (fold_left (fun acc m =>
      let k := Detection.card_value (Detection.card_type m) in
      let n := match Json.kv_get acc k (Json.JInt 0) with Json.JInt z => z | _ => 0%Z end in
      Json.set_kvs acc k (Json.JInt (n + 1))) ms acc)
    = (json_int_sum acc + Z.of_nat (length ms))%Z).
  { induction ms as [|m ms IH]; intros acc; simpl; [lia|].
    rewrite IH, json_int_sum_set. lia. }
  rewrite H. reflexivity.
Qed.

Lemma filter_negb_length : forall {A} (p : A -> bool) l,
  length (filter p l) + length (filter (fun x => negb (p x)) l) = length l.
Proof. intros A p l. induction l as [|x l IH]; simpl; [reflexivity|]. destruct (p x); simpl; lia. Qed.

Lemma qlt_true : forall a b, Detection.qlt a b = true <-> (a < b)%Q.
Proof.
  intros a b. unfold Detection.qlt. rewrite negb_true_iff. split.
  - intros H. apply Qnot_le_lt. intros H'. apply Qle_bool_iff in H'. congruence.
  - intros H. apply not_true_iff_false. intros H'. apply Qle_bool_iff in H'.
    apply (Qlt_not_le _ _ H H').
Qed.

Lemma qlt_false : forall a b, Detection.qlt a b = false <-> (b <= a)%Q.
Proof.
  intros a b. unfold Detection.qlt. rewrite negb_false_iff. apply Qle_bool_iff.
Qed.

(** [_categorize_findings]: each grouping counts every finding once:
    [luhn_valid + luhn_invalid], [high + medium + low] and
    [masked + unmasked] each equal the number of findings, and so do the
    [by_card_type] counts added up. *)
Theorem categorize_findings_totals : forall matches,
  let c := Report.categorize_findings matches in
  let n := Z.of_nat (length matches) in
  exists lv li hi me lo ma um kvs,
    json_path c [py "by_validation_status"; py "luhn_valid"] = Ok (Json.JInt lv) /\
    json_path c [py "by_validation_status"; py "luhn_invalid"] = Ok (Json.JInt li) /\
    json_path c [py "by_confidence"; py "high"] = Ok (Json.JInt hi) /\
    json_path c [py "by_confidence"; py "medium"] = Ok (Json.JInt me) /\
    json_path c [py "by_confidence"; py "low"] = Ok (Json.JInt lo) /\
    json_path c [py "by_masking_status"; py "masked"] = Ok (Json.JInt ma) /\
    json_path c [py "by_masking_status"; py "unmasked"] = Ok (Json.JInt um) /\
    json_path c [py "by_card_type"] = Ok (Json.JObj kvs) /\
    (lv + li = n)%Z /\ (hi + me + lo = n)%Z /\ (ma + um = n)%Z /\ json_int_sum kvs = n.
Proof.
  intros ms c n. subst c n.
  do 8 eexists. do 8 (split; [reflexivity|]).
  split; [rewrite <- Nat2Z.inj_add, filter_negb_length; reflexivity|].
  split; [|split; [rewrite <- Nat2Z.inj_add, filter_negb_length; reflexivity|
                   apply count_by_card_type_sum]].
  rewrite <- !Nat2Z.inj_add. f_equal.
  induction ms as [|m ms IH]; [reflexivity|]. cbn [filter length].
  destruct (Detection.qlt (8 # 10) (Detection.confidence_score m)) eqn:E8;
  destruct (Detection.qlt (5 # 10) (Detection.confidence_score m)) eqn:E5;
    cbn [negb andb length]; try lia.
  exfalso. apply qlt_true in E8. apply qlt_false in E5. lra.
Qed.

Lemma filter_nonempty_Exists : forall {A} (f : A -> bool) l,
  (0 <? length (filter f l)) = true <-> Exists (fun x => f x = true) l.
Proof.
  intros A f l. induction l as [|x l IH]; simpl.
  - split; [discriminate|intros H; inversion H].
  - rewrite Exists_cons. destruct (f x) eqn:E; simpl.
    + split; auto.
    + rewrite <- IH. split; [auto|intros [H|H]; [discriminate|exact H]].
Qed.

(** [_assess_risk]: the compliance status is ["compliant"] and the overall
    risk ["low"] exactly when there are no matches; the overall risk is
    ["critical"] exactly when some match is Luhn-valid and unmasked; at most
    ten risk factors are listed. *)
Theorem assess_risk_levels : forall matches,
  let r := Report.assess_risk matches in
  (json_path r [py "compliance_status"] = Ok (Json.JStr (py "compliant")) <-> matches = []) /\
  (json_path r [py "overall_risk"] = Ok (Json.JStr (py "low")) <-> matches = []) /\
  (json_path r [py "overall_risk"] = Ok (Json.JStr (py "critical")) <->
     Exists (fun m => Detection.luhn_valid m = true /\ Detection.is_masked m = false) matches) /\
  exists rf, json_path r [py "risk_factors"] = Ok (Json.JList rf) /\ length rf <= 10.
Proof.
  intros ms r. subst r. destruct ms as [|m ms].
  - cbn. split; [tauto|]. split; [tauto|]. split.
    + split; [discriminate|intros H; inversion H].
    + eexists. split; [reflexivity|]. cbn. lia.
  - unfold Report.assess_risk.
    set (high := filter _ (m :: ms)).
    assert (Hex : (0 <? length high) = true <->
              Exists (fun m => Detection.luhn_valid m = true /\ Detection.is_masked m = false)
                (m :: ms)).
    { unfold high. rewrite filter_nonempty_Exists.
      split; apply Exists_impl; intros x Hx.
      - apply andb_prop in Hx as [H1 H2]. apply negb_true_iff in H2. auto.
      - destruct Hx as [-> ->]. reflexivity. }
    assert (Hrf : exists rf, json_path (Report.assess_risk (m :: ms)) [py "risk_factors"]
                               = Ok (Json.JList rf) /\ length rf <= 10).
    { exists (map Json.JStr (firstn 10 (map (fun m => py "Unmasked valid PAN in " ++ Detection.file_path m) high))).
      split; [|rewrite length_map, length_firstn; lia].
      unfold Report.assess_risk. fold high.
      destruct (0 <? length high); [reflexivity|].
      destruct (10 <? length (m :: ms)); reflexivity. }
    unfold Report.assess_risk in Hrf. fold high in Hrf.
    destruct (0 <? length high) eqn:Eh.
    + split; [cbn; split; discriminate|]. split; [cbn; split; discriminate|].
      split; [cbn; split; [intros _; apply Hex; reflexivity|reflexivity]|].
      exact Hrf.
    + assert (Hn : ~ Exists (fun m => Detection.luhn_valid m = true /\ Detection.is_masked m = false)
                    (m :: ms)) by (rewrite <- Hex; discriminate).
      destruct (10 <? length (m :: ms));
        (split; [cbn; split; discriminate|]; split; [cbn; split; discriminate|];
         split; [cbn; split; [discriminate|contradiction]|]; exact Hrf).
Qed.

(** [_generate_recommendations]: the CRITICAL recommendation is present
    exactly when some match is unmasked and Luhn-valid, the automated
    discovery one exactly when there are more than five matches, and the
    four baseline recommendations are always present. *)
Theorem generate_recommendations_content : forall matches,
  let r := Report.generate_recommendations matches in
  (In (py "CRITICAL: Secure unmasked PANs immediately") r <->
     Exists (fun m => Detection.is_masked m = false /\ Detection.luhn_valid m = true) matches) /\
  (In (py "Consider automated PAN discovery and classification") r <-> 5 < length matches) /\
  incl (map py ["Implement regular PCI compliance scanning";
                "Establish data retention and disposal policies";
                "Implement strong access controls and authentication";
                "Enable comprehensive audit logging"]%string) r.
Proof.
  intros ms r. subst r. unfold Report.generate_recommendations.
  assert (Hex : existsb (fun m => negb (Detection.is_masked m) && Detection.luhn_valid m) ms = true
            <-> Exists (fun m => Detection.is_masked m = false /\ Detection.luhn_valid m = true) ms).
  { rewrite existsb_exists, Exists_exists. split.
    - intros [x [Hx Hf]]. apply andb_prop in Hf as [H1 H2]. apply negb_true_iff in H1. eauto.
    - intros [x [Hx [H1 H2]]]. exists x. rewrite H1, H2. auto. }
  destruct (existsb _ ms) eqn:Ee; destruct (Nat.ltb_spec 5 (length ms)) as [H5|H5]; cbn [app map];
    (split; [rewrite <- Hex; cbn [In]; intuition discriminate|]);
    (split; [cbn [In]; intuition (try discriminate; try lia)|]);
    intros x Hx; cbn [In map] in *; intuition.
Qed.

(** [_get_remediation_suggestions]: the list always ends with the two
    generic suggestions; the URGENT line is present exactly when the match
    is unmasked and Luhn-valid, and the high-confidence line exactly when
    the confidence score exceeds 0.7. *)
Theorem remediation_suggestions_shape : forall m,
  let r := Report.remediation_suggestions m in
  (exists pre, r = pre ++ map py ["Consider data encryption at rest";
                                  "Implement access controls and audit logging"]%string) /\
  (In (py "URGENT: Unmasked valid PAN detected - secure immediately") r <->
     Detection.is_masked m = false /\ Detection.luhn_valid m = true) /\
  (In (py "High confidence match - verify and remediate") r <->
     Detection.qlt (7 # 10) (Detection.confidence_score m) = true).
Proof.
  intros m r. subst r. unfold Report.remediation_suggestions.
  split; [eexists; rewrite !app_assoc; reflexivity|].
  destruct (Detection.is_masked m), (Detection.luhn_valid m),
    (Detection.qlt (7 # 10) (Detection.confidence_score m)); cbn [negb andb app map In];
    split; (split; [intuition discriminate|intuition discriminate]).
Qed.





Lemma process_finding_fields : forall db sha cfg m f,
  Report.process_finding db sha cfg m = Ok f ->
  json_path f [py "line_number"] = Ok (Json.JInt (Z.of_nat (Detection.line_number m))) /\
  json_path f [py "card_type"] = Ok (Json.JStr (Detection.card_value (Detection.card_type m))) /\
  json_path f [py "luhn_valid"] = Ok (Json.JBool (Detection.luhn_valid m)) /\
  json_path f [py "is_masked"] = Ok (Json.JBool (Detection.is_masked m)) /\
  json_path f [py "confidence_score"] = Ok (Json.JFloat (Report.py_round3 (Detection.confidence_score m))) /\
  json_path f [py "remediation_priority"] = Ok (Json.JStr (Report.calculate_priority m)).
Proof.
  intros db sha cfg m f H. unfold Report.process_finding in H.
  destruct (report_sanitize_file_path_ok db (Detection.file_path m)) as [fp Hfp]. rewrite Hfp in H.
  destruct (report_sanitize_context_ok db (Detection.context_before m)) as [b Hb]. rewrite Hb in H.
  destruct (report_sanitize_context_ok db (Detection.context_after m)) as [a Ha]. rewrite Ha in H.
  cbn [rbind] in H. injection H as <-. repeat split; reflexivity.
Qed.

(** [create_report]: the report carries the given [scan_id] and
    [agent_id], [total_matches_found] is the number of matches, and
    [findings] has one entry per match, in order, with that match's line
    number, card type, Luhn flag, masking flag, rounded confidence and
    [_calculate_priority]. *)
Theorem create_report_findings : forall db sha256_hex float_repr cfg agent_id scan_id operator
    matches scan_stats config_summary timestamp,
  exists r fs,
    Report.create_report db sha256_hex float_repr cfg agent_id scan_id operator matches
      scan_stats config_summary timestamp = Ok r /\
    json_path r [py "metadata"; py "scan_id"] = Ok (Json.JStr scan_id) /\
    json_path r [py "metadata"; py "agent_id"] = Ok (Json.JStr agent_id) /\
    json_path r [py "scan_results"; py "summary"; py "total_matches_found"]
      = Ok (Json.JInt (Z.of_nat (length matches))) /\
    json_path r [py "scan_results"; py "findings"] = Ok (Json.JList fs) /\
    Forall2 (fun m f =>
      json_path f [py "line_number"] = Ok (Json.JInt (Z.of_nat (Detection.line_number m))) /\
      json_path f [py "card_type"] = Ok (Json.JStr (Detection.card_value (Detection.card_type m))) /\
      json_path f [py "luhn_valid"] = Ok (Json.JBool (Detection.luhn_valid m)) /\
      json_path f [py "is_masked"] = Ok (Json.JBool (Detection.is_masked m)) /\
      json_path f [py "confidence_score"]
        = Ok (Json.JFloat (Report.py_round3 (Detection.confidence_score m))) /\
      json_path f [py "remediation_priority"] = Ok (Json.JStr (Report.calculate_priority m)))
      matches fs.
Proof.
  intros db sha fr cfg aid sid op ms stats cs ts.
  destruct (process_findings_ok db sha cfg ms) as [fs Hfs].
  unfold Report.create_report. rewrite Hfs. cbn [rbind].
  eexists. exists fs. split; [reflexivity|].
  do 4 (split; [reflexivity|]).
  apply mapR_Forall2 in Hfs. eapply Forall2_impl; [|exact Hfs].
  intros m f Hf. exact (process_finding_fields db sha cfg m f Hf).
Qed.


(* ------------------------------------------------------------------ *)
(** ** From [create_report] to the server format *)


(** [create_report] followed by [_transform_report_for_server] (as
    [send_report] does): when [config_summary['scan_directories']] is an
    int [n] (the main program passes a count), the transformation succeeds
    whatever the timestamp; the server report keeps the agent id, the
    operator, the scan id and the findings list, and its
    [directories_scanned] is [directory_1 ... directory_n], since the report
    has no [actual_directories] key. *)
Theorem transform_created_report : forall db sha256_hex float_repr iso_to_date cfg agent_id scan_id
    operator matches scan_stats config_summary timestamp n,
  Json.kv_get config_summary (py "scan_directories") (Json.JInt 0) = Json.JInt n ->
  exists r sr,
    Report.create_report db sha256_hex float_repr cfg agent_id scan_id operator matches
      scan_stats config_summary timestamp = Ok r /\
    Client.transform_report iso_to_date r = Ok sr /\
    json_path sr [py "agent_id"] = Ok (Json.JStr agent_id) /\
    json_path sr [py "operator"] = Ok (Json.JStr operator) /\
    json_path sr [py "metadata"; py "scan_id"] = Ok (Json.JStr scan_id) /\
    json_path sr [py "findings"] = json_path r [py "scan_results"; py "findings"] /\
    json_path sr [py "directories_scanned"]
      = Ok (Json.JList (map (fun i => Json.JStr (py "directory_" ++ Json.N_repr (N.of_nat (S i))))
                            (seq 0 (Z.to_nat n)))).
Proof.
  intros db sha fr iso cfg aid sid op ms stats cs ts n Hn.
  destruct (process_findings_ok db sha cfg ms) as [fs Hfs].
  unfold Report.create_report. rewrite Hfs. cbn [rbind].
  set (h := sha (Json.dumps fr true _)). rewrite Hn.
  destruct (iso (Client.replace_char 90 [43%N; 48%N; 48%N; 58%N; 48%N; 48%N] ts)) as [d|] eqn:Eiso;
  destruct (Json.truthy (Json.JStr ts)) eqn:Et;
  destruct (Json.contains (Json.JStr ts) [84%N]) as [[|]|e] eqn:Ec;
  try (cbn in Ec; discriminate);
  eexists; eexists; split; try reflexivity;
  unfold Client.transform_report; cbn - [Json.truthy Json.contains]; rewrite Et;
  cbn - [Json.contains]; rewrite ?Ec; cbn; rewrite ?Eiso; cbn;
  repeat match goal with |- _ /\ _ => split end; reflexivity.
Qed.

(** [_sanitize_context] always returns a string of at most 203 characters
    (200 and ["..."]), and the empty string for an empty context. *)
Theorem sanitize_context_length : forall db context,
  exists s, Report.sanitize_context db context = Ok s /\ length s <= 203 /\
    (context = [] -> s = []).
Proof.
  intros db c. destruct (report_sanitize_context_ok db c) as [s Hs]. exists s.
  split; [exact Hs|]. destruct c as [|x c'].
  - cbn in Hs. injection Hs as <-. cbn. split; [lia|reflexivity].
  - split; [|discriminate]. unfold Report.sanitize_context in Hs.
    destruct (re_sub db Report.email_re (py "<email>") (x :: c')) as [s1|] eqn:E1;
      cbn [rbind] in Hs; [|discriminate].
    destruct (re_sub db (Report.ssn_re db) (py "<ssn>") s1) as [s2|] eqn:E2;
      cbn [rbind] in Hs; [|discriminate].
    injection Hs as <-.
    destruct (200 <? length s2) eqn:E.
    + assert (Hlen : length (firstn 200 s2 ++ py "...") <= 203).
      { rewrite length_app, length_firstn. change (length (py "...")) with 3. lia. }
      exact Hlen.
    + apply Nat.ltb_ge in E. lia.
Qed.

Lemma transform_created_report_witness : exists r sr,
  Report.create_report sample_db (fun _ => []) (fun _ => []) Detection.default_config
    (py "agent-1") (py "scan-1") (py "ops") [] [] [(py "scan_directories", Json.JInt 2)]
    (py "2024-01-01T00:00:00") = Ok r /\
  Client.transform_report (fun _ => None) r = Ok sr /\
  json_path sr [py "directories_scanned"]
    = Ok (Json.JList [Json.JStr (py "directory_1"); Json.JStr (py "directory_2")]).
Proof.
  destruct (transform_created_report sample_db (fun _ => []) (fun _ => []) (fun _ => None)
              Detection.default_config (py "agent-1") (py "scan-1") (py "ops") [] []
              [(py "scan_directories", Json.JInt 2)] (py "2024-01-01T00:00:00") 2 eq_refl)
    as (r & sr & H1 & H2 & _ & _ & _ & _ & H7).
  exists r, sr. split; [exact H1|]. split; [exact H2|]. rewrite H7. reflexivity.
Defined.

(* ------------------------------------------------------------------ *)
(** ** secure_client.py *)

Lemma post_attempts_shape : forall server retries fuel attempt data,
  let r := Client.post_attempts server retries attempt fuel data in
  length (fst r) <= fuel /\ Forall (eq data) (fst r) /\
  (forall b, snd r = Some b -> exists k s,
     attempt <= k < attempt + fuel /\ server k = Client.HttpResponse s b /\
     (s = 200 \/ s = 201) /\ length (fst r) = S (k - attempt)).
Proof.
  intros server retries fuel. induction fuel as [|f IH]; intros attempt data r; subst r.
  - cbn. split; [lia|]. split; [constructor|]. discriminate.
  - cbn [Client.post_attempts].
    destruct (IH (S attempt) data) as [IH1 [IH2 IH3]].
    set (again := Client.post_attempts server retries (S attempt) f data) in *.
    assert (Hcons : length (fst (data :: fst again, snd again)) <= S f /\
                    Forall (eq data) (fst (data :: fst again, snd again)) /\
                    (forall b, snd (data :: fst again, snd again) = Some b -> exists k s,
                       attempt <= k < attempt + S f /\ server k = Client.HttpResponse s b /\
                       (s = 200 \/ s = 201) /\
                       length (fst (data :: fst again, snd again)) = S (k - attempt))).
    { cbn [fst snd length]. split; [lia|]. split; [constructor; auto|].
      intros b Hb. destruct (IH3 b Hb) as [k [s [Hk [Hs [Hs2 Hl]]]]].
      exists k, s. split; [lia|]. split; [exact Hs|]. split; [exact Hs2|]. lia. }
    assert (Hone : forall o, (o = None \/ exists s b, o = Some b /\
                     server attempt = Client.HttpResponse s b /\ (s = 200 \/ s = 201)) ->
              length (fst ([data], o)) <= S f /\ Forall (eq data) (fst ([data], o)) /\
              (forall b, snd ([data], o) = Some b -> exists k s,
                 attempt <= k < attempt + S f /\ server k = Client.HttpResponse s b /\
                 (s = 200 \/ s = 201) /\ length (fst ([data], o)) = S (k - attempt))).
    { intros o Ho. cbn [fst snd length]. split; [lia|]. split; [constructor; auto|].
      intros b Hb. destruct Ho as [->|[s [b' [-> [Hs Hs2]]]]]; [discriminate|].
      injection Hb as <-. exists attempt, s. repeat split; auto; lia. }
    destruct (server attempt) as [s body|] eqn:Es.
    + destruct ((s =? 200) || (s =? 201)) eqn:E1.
      { apply Hone. right. exists s, body. split; [reflexivity|]. split; [reflexivity|].
        apply orb_true_iff in E1. rewrite !Nat.eqb_eq in E1. exact E1. }
      destruct ((s =? 401) || (s =? 403)); [apply Hone; auto|].
      destruct (s =? 429); [exact Hcons|].
      destruct (attempt <? retries); [exact Hcons|apply Hone; auto].
    + destruct (attempt =? retries); [apply Hone; auto|exact Hcons].
Qed.


Lemma make_post_shape : forall cc server data,
  let r := Client.make_post cc server data in
  length (fst r) <= S (Client.max_retries cc) /\ Forall (eq data) (fst r) /\
  (Client.server_url cc = None -> r = ([], None)) /\
  (forall b, snd r = Some b -> exists k s,
     k <= Client.max_retries cc /\ server k = Client.HttpResponse s b /\
     (s = 200 \/ s = 201) /\ length (fst r) = S k).
Proof.
  intros cc server data r. subst r. unfold Client.make_post.
  destruct (Client.server_url cc) as [u|].
  - destruct (post_attempts_shape server (Client.max_retries cc) (S (Client.max_retries cc)) 0 data)
      as [H1 [H2 H3]].
    split; [exact H1|]. split; [exact H2|]. split; [discriminate|].
    intros b Hb. destruct (H3 b Hb) as [k [s [Hk [Hs [Hs2 Hl]]]]].
    exists k, s. split; [lia|]. split; [exact Hs|]. split; [exact Hs2|]. lia.
  - cbn. split; [lia|]. split; [constructor|]. split; [reflexivity|]. discriminate.
Qed.

(** [_make_request] for a POST: at most [max_retries + 1] requests are
    sent, each with the same payload; with no [server_url] nothing is sent
    and [None] is returned; a body is returned only when attempt [k] (at
    most [max_retries]) was answered 200 or 201 with that body, after
    exactly [k + 1] requests. *)
Theorem make_post_attempts : forall cc server data,
  let r := Client.make_post cc server data in
  length (fst r) <= S (Client.max_retries cc) /\ Forall (eq data) (fst r) /\
  (Client.server_url cc = None -> r = ([], None)) /\
  (forall b, snd r = Some b -> exists k s,
     k <= Client.max_retries cc /\ server k = Client.HttpResponse s b /\
     (s = 200 \/ s = 201) /\ length (fst r) = S k).
Proof. exact make_post_shape. Qed.



(** [send_report] with no [server_url] sends nothing and returns
    [False], whatever the report. *)
Theorem send_report_no_server : forall db float_repr iso_to_date cc server report,
  Client.server_url cc = None ->
  Client.send_report db float_repr iso_to_date cc server report = ([], false).
Proof.
  intros db fr iso cc server report Hu. unfold Client.send_report.
  destruct (rbind _ _); [|reflexivity].
  destruct (Client.validate_report _ _ _) as [[|]|]; try reflexivity.
  destruct (Client.transform_report _ _) as [sr|]; [|reflexivity].
  unfold Client.make_post. rewrite Hu. reflexivity.
Qed.

(** [send_report] returns [True] only when [_validate_report] accepted
    the report (so [_contains_sensitive_data] found nothing), and what was
    sent is the transformed report, [k + 1] times, where attempt [k] (at
    most [max_retries]) was answered 200 or 201. *)
Theorem send_report_true : forall db float_repr iso_to_date cc server report posted,
  Client.send_report db float_repr iso_to_date cc server report = (posted, true) ->
  Client.validate_report db float_repr report = Ok true /\
  Client.contains_sensitive_data db float_repr report = false /\
  exists sr k s body, Client.transform_report iso_to_date report = Ok sr /\
    posted = repeat sr (S k) /\ k <= Client.max_retries cc /\
    server k = Client.HttpResponse s body /\ (s = 200 \/ s = 201).
Proof.
  intros db fr iso cc server report posted H. unfold Client.send_report in H.
  destruct (rbind _ _); [|discriminate].
  destruct (Client.validate_report db fr report) as [[|]|] eqn:Ev; try discriminate.
  split; [reflexivity|]. split; [apply (validate_report_sensitive db fr report Ev)|].
  destruct (Client.transform_report iso report) as [sr|] eqn:Et; [|discriminate].
  destruct (make_post_shape cc server sr) as [_ [Hall [_ Hsome]]].
  destruct (Client.make_post cc server sr) as [p resp].
  destruct resp as [b|]; [|discriminate].
  destruct (Hsome b eq_refl) as [k [s [Hk [Hs [Hs2 Hl]]]]].
  destruct b; try discriminate. injection H as <-.
  exists sr, k, s, (Json.JObj kvs). split; [reflexivity|]. split.
  - cbn [fst] in Hall, Hl. rewrite <- Hl. clear -Hall.
    induction p as [|x p IH]; [reflexivity|]. inversion Hall; subst. cbn. f_equal. auto.
  - auto.
Qed.

(** [_validate_report] returns [False] for a report object that lacks one
    of [metadata], [scan_parameters], [scan_results] and
    [compliance_notes], and [send_report] then sends nothing and returns
    [False]. *)
Theorem validate_report_missing_section : forall db float_repr iso_to_date cc server kvs,
  Exists (fun k => ~ In k (map fst kvs))
    (map py ["metadata"; "scan_parameters"; "scan_results"; "compliance_notes"]%string) ->
  Client.validate_report db float_repr (Json.JObj kvs) = Ok false /\
  Client.send_report db float_repr iso_to_date cc server (Json.JObj kvs) = ([], false).
Proof.
  intros db fr iso cc server kvs Hmiss.
  assert (Hc : forall k, ~ In k (map fst kvs) -> Json.contains (Json.JObj kvs) k = Ok false).
  { intros k Hk. cbn. f_equal. apply not_true_iff_false. intros He.
    apply existsb_exists in He as [[k' v] [Hin Heq]]. cbn in Heq.
    unfold pystr_eqb in Heq. destruct (list_eq_dec N.eq_dec k' k) as [->|]; [|discriminate].
    apply Hk. apply (in_map fst) in Hin. exact Hin. }
  assert (Hv : Client.validate_report db fr (Json.JObj kvs) = Ok false).
  { unfold Client.validate_report.
    assert (Ha : forall l, Exists (fun k => ~ In k (map fst kvs)) l ->
                 Client.all_in (Json.JObj kvs) l = Ok false).
    { intros l Hl. induction Hl as [k l Hk|k l Hl IH].
      - cbn [Client.all_in]. rewrite (Hc k Hk). reflexivity.
      - cbn [Client.all_in]. destruct (Json.contains (Json.JObj kvs) k) as [[|]|] eqn:E;
          cbn [rbind]; [exact IH|reflexivity|discriminate]. }
    rewrite (Ha _ Hmiss). reflexivity. }
  split; [exact Hv|]. unfold Client.send_report. rewrite Hv.
  destruct (rbind _ _); reflexivity.
Qed.



Lemma send_report_no_server_witness :
  Client.send_report sample_db (fun _ => []) (fun _ => None)
    {| Client.server_url := None; Client.max_retries := 3 |} accepting_server
    (sample_client_report (py "ok")) = ([], false).
Proof. apply send_report_no_server. reflexivity. Defined.

Lemma send_report_true_witness :
  Client.validate_report sample_db (fun _ => []) (sample_client_report (py "ok")) = Ok true.
Proof.
  destruct (Client.send_report sample_db (fun _ => []) (fun _ => None) sample_client_config
              accepting_server (sample_client_report (py "ok"))) as [posted b] eqn:E.
  destruct b; [|vm_compute in E; discriminate].
  exact (proj1 (send_report_true _ _ _ _ _ _ _ E)).
Defined.

Lemma validate_report_missing_section_witness :
  Client.validate_report sample_db (fun _ => []) (Json.JObj [(py "metadata", Json.JObj [])]) = Ok false /\
  Client.send_report sample_db (fun _ => []) (fun _ => None) sample_client_config accepting_server
    (Json.JObj [(py "metadata", Json.JObj [])]) = ([], false).
Proof.
  apply validate_report_missing_section.
  cbn. apply Exists_cons_tl, Exists_cons_hd. cbn. intros [H|[]]. discriminate.
Defined.

(* ------------------------------------------------------------------ *)
(** ** audit_logger.py *)


Lemma pystr_eqb_spec : forall a b, pystr_eqb a b = true <-> a = b.
Proof.
  intros a b. unfold pystr_eqb. destruct (list_eq_dec N.eq_dec a b); split; congruence.
Qed.

Lemma getitem_set_kvs_same : forall kvs k v,
  Json.getitem (Json.JObj (Json.set_kvs kvs k v)) k = Ok v.
Proof.
  intros kvs k v. induction kvs as [|[k' v'] rest IH]; cbn.
  - destruct (pystr_eqb k k) eqn:E; [reflexivity|].
    exfalso. assert (H : k = k) by reflexivity. apply pystr_eqb_spec in H. congruence.
  - destruct (pystr_eqb k' k) eqn:E; cbn; [rewrite E; reflexivity|].
    rewrite E. exact IH.
Qed.

Lemma getitem_set_kvs_other : forall kvs k v k', k <> k' ->
  Json.getitem (Json.JObj (Json.set_kvs kvs k v)) k' = Json.getitem (Json.JObj kvs) k'.
Proof.
  intros kvs k v k' Hne. induction kvs as [|[k0 v0] rest IH]; cbn.
  - destruct (pystr_eqb k k') eqn:E; [apply pystr_eqb_spec in E; congruence|reflexivity].
  - destruct (pystr_eqb k0 k) eqn:E; cbn.
    + apply pystr_eqb_spec in E. subst k0.
      destruct (pystr_eqb k k') eqn:E'; [apply pystr_eqb_spec in E'; congruence|reflexivity].
    + destruct (pystr_eqb k0 k'); [reflexivity|]. exact IH.
Qed.

Lemma find_app_l : forall {A} (f : A -> bool) l1 l2,
  find f (l1 ++ l2) = match find f l1 with Some x => Some x | None => find f l2 end.
Proof.
  intros A f l1 l2. induction l1 as [|x l1 IH]; [reflexivity|].
  cbn. destruct (f x); [reflexivity|exact IH].
Qed.

Lemma getitem_update : forall kwargs base k,
  Json.getitem (Json.JObj (fold_left (fun entry kv => Json.set_kvs entry (fst kv) (snd kv))
                            kwargs base)) k
  = match find (fun kv => pystr_eqb (fst kv) k) (rev kwargs) with
    | Some (_, v) => Ok v
    | None => Json.getitem (Json.JObj base) k
    end.
Proof.
  intros kwargs. induction kwargs as [|[k0 v0] kw IH]; intros base k; [reflexivity|].
  cbn [fold_left fst snd]. rewrite IH. cbn [rev]. rewrite find_app_l.
  destruct (find _ (rev kw)) as [[k1 v1]|]; [reflexivity|]. cbn.
  destruct (pystr_eqb k0 k) eqn:E.
  - apply pystr_eqb_spec in E. subst k0. apply getitem_set_kvs_same.
  - apply getitem_set_kvs_other. intros ->. 
    assert (H : k = k) by reflexivity. apply pystr_eqb_spec in H. congruence.
Qed.

Lemma find_rev_NoDup : forall (kwargs : list (pystr * Json.json)) k v,
  NoDup (map fst kwargs) -> In (k, v) kwargs ->
  find (fun kv => pystr_eqb (fst kv) k) (rev kwargs) = Some (k, v).
Proof.
  intros kwargs k v Hnd Hin.
  assert (Hnd' : NoDup (map fst (rev kwargs))) by (rewrite map_rev; apply NoDup_rev; exact Hnd).
  apply in_rev in Hin. revert Hnd' Hin. generalize (rev kwargs) as l. clear.
  intros l Hnd Hin. induction l as [|[k0 v0] l IH]; [contradiction|].
  cbn in Hnd. inversion Hnd as [|x xs Hnotin Hnd2]; subst.
  cbn. destruct Hin as [Heq|Hin].
  - injection Heq as -> ->. cbn.
    assert (H : k = k) by reflexivity. apply pystr_eqb_spec in H. rewrite H. reflexivity.
  - destruct (pystr_eqb k0 k) eqn:E; cbn; [|apply IH; auto].
    apply pystr_eqb_spec in E. subst k0. exfalso. apply Hnotin.
    apply (in_map fst) in Hin. exact Hin.
Qed.

Lemma find_rev_none : forall (kwargs : list (pystr * Json.json)) k,
  ~ In k (map fst kwargs) -> find (fun kv => pystr_eqb (fst kv) k) (rev kwargs) = None.
Proof.
  intros kwargs k Hk.
  assert (H : ~ In k (map fst (rev kwargs))) by (rewrite map_rev, <- in_rev; exact Hk).
  revert H. generalize (rev kwargs) as l. clear. intros l H.
  induction l as [|[k0 v0] l IH]; [reflexivity|]. cbn.
  destruct (pystr_eqb k0 k) eqn:E.
  - apply pystr_eqb_spec in E. subst k0. exfalso. apply H. left. reflexivity.
  - apply IH. intros Hin. apply H. right. exact Hin.
Qed.

(** [_create_base_entry(event_type, **kwargs)]: [entry.update(kwargs)]
    makes every keyword argument readable under its own name (it
    overrides a base field of the same name), and every other key reads as
    in the base entry with [timestamp], [event_type], [process_id] and
    [thread_id]. *)
Theorem create_base_entry_update : forall timestamp pid tid event_type kwargs,
  NoDup (map fst kwargs) ->
  let e := Audit.create_base_entry timestamp pid tid event_type kwargs in
  (forall k v, In (k, v) kwargs -> Json.getitem e k = Ok v) /\
  (forall k, ~ In k (map fst kwargs) ->
     Json.getitem e k = Json.getitem (Json.JObj [(py "timestamp", Json.JStr timestamp);
                                                 (py "event_type", Json.JStr event_type);
                                                 (py "process_id", Json.JInt pid);
                                                 (py "thread_id", Json.JInt tid)]) k).
Proof.
  intros ts pid tid et kwargs Hnd e. subst e. unfold Audit.create_base_entry. split.
  - intros k v Hin. rewrite getitem_update, (find_rev_NoDup kwargs k v Hnd Hin). reflexivity.
  - intros k Hk. rewrite getitem_update, (find_rev_none kwargs k Hk). reflexivity.
Qed.

(** [log_config_change]: the entry has [event_type] ["config_changed"]
    and the given [setting]; when the lower-cased setting contains
    [password], [token] or [key], [old_value] and [new_value] are each
    ["<redacted>"] or [None], so the values themselves are not logged;
    otherwise both values are logged as given. *)
Theorem log_config_change_redacts : forall db timestamp pid tid operator setting
    old_value new_value justification,
  let e := Audit.log_config_change db timestamp pid tid operator setting old_value new_value
             justification in
  let sl := u_lower db setting in
  Json.getitem e (py "event_type") = Ok (Json.JStr (py "config_changed")) /\
  Json.getitem e (py "setting") = Ok (Json.JStr setting) /\
  ((is_infix (py "password") sl || is_infix (py "token") sl || is_infix (py "key") sl) = true ->
     forall k, k = py "old_value" \/ k = py "new_value" ->
       Json.getitem e k = Ok (Json.JStr (py "<redacted>")) \/ Json.getitem e k = Ok Json.JNull) /\
  ((is_infix (py "password") sl || is_infix (py "token") sl || is_infix (py "key") sl) = false ->
     Json.getitem e (py "old_value") = Ok old_value /\
     Json.getitem e (py "new_value") = Ok new_value).
Proof.
  intros db ts pid tid op setting old new just e sl. subst e sl.
  unfold Audit.log_config_change.
  destruct (is_infix (py "password") (u_lower db setting) || is_infix (py "token") (u_lower db setting)
            || is_infix (py "key") (u_lower db setting)).
  - split; [reflexivity|]. split; [reflexivity|]. split; [|discriminate].
    intros _ k [-> | ->]; [destruct (Json.truthy old)|destruct (Json.truthy new)];
      [left|right|left|right]; reflexivity.
  - split; [reflexivity|]. split; [reflexivity|]. split; [discriminate|].
    intros _. split; reflexivity.
Qed.

(** [_assess_finding_risk] against [ReportGenerator._calculate_priority]:
    the audit risk is [critical] or [high] exactly when the finding is
    Luhn-valid and unmasked, and the report then gives it priority
    [critical]; an audit risk of [medium] goes with report priority
    [critical] or [high]. *)
Theorem assess_finding_risk_priority : forall m,
  let a := Audit.assess_finding_risk (Detection.luhn_valid m) (Detection.is_masked m)
             (Detection.confidence_score m) in
  ((a = py "critical" \/ a = py "high") <->
     Detection.luhn_valid m = true /\ Detection.is_masked m = false) /\
  ((a = py "critical" \/ a = py "high") -> Report.calculate_priority m = py "critical") /\
  (a = py "medium" -> Report.calculate_priority m = py "critical" \/
                      Report.calculate_priority m = py "high").
Proof.
  intros m a. subst a. unfold Audit.assess_finding_risk, Report.calculate_priority.
  destruct (Detection.luhn_valid m), (Detection.is_masked m),
    (Detection.qlt (8 # 10) (Detection.confidence_score m)), (Report.is_major (Detection.card_type m));
    cbn; intuition discriminate.
Qed.


Lemma create_base_entry_update_witness :
  Json.getitem (Audit.create_base_entry (py "t") 1 2 (py "user_action")
                  [(py "operator", Json.JStr (py "ops")); (py "timestamp", Json.JStr (py "x"))])
    (py "timestamp") = Ok (Json.JStr (py "x")).
Proof.
  apply (proj1 (create_base_entry_update (py "t") 1 2 (py "user_action")
                  [(py "operator", Json.JStr (py "ops")); (py "timestamp", Json.JStr (py "x"))]
                  ltac:(repeat constructor; cbn; intuition discriminate))).
  right. left. reflexivity.
Defined.

(* ------------------------------------------------------------------ *)
(** ** file_scanner.py *)

Lemma remove_nth_perm : forall {A} (l : list A) i d, i < length l ->
  Permutation l (nth i l d :: Scanner.remove_nth i l).
Proof.
  intros A l. induction l as [|x l IH]; intros i d Hi; [cbn in Hi; lia|].
  destruct i as [|i]; cbn; [reflexivity|].
  cbn in Hi. eapply perm_trans; [apply perm_skip, (IH i d); lia|]. apply perm_swap.
Qed.

Lemma remove_nth_length : forall {A} (l : list A) i, i < length l ->
  length (Scanner.remove_nth i l) = length l - 1.
Proof.
  intros A l. induction l as [|x l IH]; intros i Hi; [cbn in Hi; lia|].
  destruct i as [|i]; cbn; [lia|]. cbn in Hi. rewrite IH by lia. lia.
Qed.

Lemma firstn_S_nth : forall {A} (l : list A) n d, n < length l ->
  firstn (S n) l = firstn n l ++ [nth n l d].
Proof.
  intros A l. induction l as [|x l IH]; intros n d Hn; [cbn in Hn; lia|].
  destruct n as [|n]; [reflexivity|]. cbn in Hn.
  change (x :: firstn (S n) l = x :: firstn n l ++ [nth n l d]).
  rewrite (IH n d) by lia. reflexivity.
Qed.

Lemma scanning_events_snoc : forall {A} (scan_file : pystr -> list A) total done x,
  scanning_events scan_file total (done ++ [x])
  = scanning_events scan_file total done
    ++ [Scanner.EvScanning (S (length done)) total (length (flat_map scan_file (done ++ [x])))].
Proof.
  intros A sf total done x. unfold scanning_events.
  rewrite length_app. cbn [length]. rewrite Nat.add_1_r, seq_S, map_app. cbn [map].
  f_equal.
  - apply map_ext_in. intros i Hi. apply in_seq in Hi.
    rewrite firstn_app. replace (i - length done) with 0 by lia. rewrite app_nil_r. reflexivity.
  - rewrite firstn_all2 by (rewrite length_app; cbn; lia). reflexivity.
Qed.

Section ScanComplete.
Import Scanner.
Variable A : Type.
Variables (walk : pystr -> list pystr) (scan_file : pystr -> list A) (pick : nat -> nat).

Lemma pass2_complete : forall fuel k all total futures fi done evs0,
  total = length all -> fi <= total ->
  Permutation (done ++ futures) (firstn fi all) ->
  (futures = [] -> fi = total) ->
  total - fi + length futures <= fuel ->
  exists rest, Permutation (done ++ rest) all /\
    pass2 A scan_file (fun _ => false) (fun _ => false) pick fuel k all total futures fi
      (length done) (flat_map scan_file done) (evs0 ++ scanning_events scan_file total done)
    = (length (done ++ rest), flat_map scan_file (done ++ rest),
       evs0 ++ scanning_events scan_file total (done ++ rest)).
Proof.
  intros fuel. induction fuel as [|f IH]; intros k all total futures fi done evs0 Ht Hfi Hp Hend Hm.
  - destruct futures as [|x fs]; [|cbn in Hm; lia].
    specialize (Hend eq_refl). subst fi.
    exists []. rewrite !app_nil_r. split; [|reflexivity].
    rewrite app_nil_r in Hp. rewrite Ht, firstn_all in Hp. exact Hp.
  - destruct futures as [|x fs].
    + specialize (Hend eq_refl). subst fi.
      exists []. rewrite !app_nil_r. split; [|reflexivity].
      rewrite app_nil_r in Hp. rewrite Ht, firstn_all in Hp. exact Hp.
    + cbn [pass2 negb andb].
      set (futures := x :: fs) in *.
      set (idx := pick k mod length futures).
      assert (Hidx : idx < length futures) by (apply Nat.mod_upper_bound; cbn; lia).
      set (file := nth idx futures []).
      set (futures' := remove_nth idx futures).
      assert (Hperm1 : Permutation ((done ++ [file]) ++ futures') (done ++ futures)).
      { rewrite <- app_assoc. cbn [app]. apply Permutation_app_head.
        symmetry. apply remove_nth_perm. exact Hidx. }
      assert (Hlen' : length futures' = length futures - 1) by (apply remove_nth_length; exact Hidx).
      assert (Hev : evs0 ++ scanning_events scan_file total done ++
                    [EvScanning (S (length done)) total
                       (length (flat_map scan_file done ++ scan_file file))]
                    = evs0 ++ scanning_events scan_file total (done ++ [file])).
      { rewrite scanning_events_snoc, flat_map_app. cbn [flat_map]. rewrite app_nil_r.
        rewrite app_assoc. reflexivity. }
      assert (Hms : flat_map scan_file done ++ scan_file file = flat_map scan_file (done ++ [file])).
      { rewrite flat_map_app. cbn. rewrite app_nil_r. reflexivity. }
      assert (Hc : S (length done) = length (done ++ [file])) by (rewrite length_app; cbn; lia).
      destruct (Nat.ltb_spec fi total) as [Hlt|Hge]; cbn [andb].
      * rewrite <- app_assoc, Hev, Hms, Hc.
        assert (P1 : Permutation ((done ++ [file]) ++ futures' ++ [nth fi all []]) (firstn (S fi) all)).
        { rewrite (firstn_S_nth all fi []) by lia. rewrite app_assoc.
          apply Permutation_app_tail. eapply perm_trans; [exact Hperm1|exact Hp]. }
        assert (P2 : futures' ++ [nth fi all []] = [] -> S fi = total).
        { intros Hnil. destruct futures'; discriminate. }
        assert (P3 : total - S fi + length (futures' ++ [nth fi all []]) <= f).
        { rewrite length_app. cbn [length] in *. lia. }
        destruct (IH (S k) all total (futures' ++ [nth fi all []]) (S fi) (done ++ [file]) evs0
                    Ht ltac:(lia) P1 P2 P3) as [rest [Hrest Heq]].
        exists ([file] ++ rest). rewrite app_assoc. split; [exact Hrest|exact Heq].
      * rewrite <- app_assoc, Hev, Hms, Hc.
        assert (P1 : Permutation ((done ++ [file]) ++ futures') (firstn fi all)).
        { eapply perm_trans; [exact Hperm1|exact Hp]. }
        assert (P3 : total - fi + length futures' <= f) by (cbn [length] in *; lia).
        destruct (IH (S k) all total futures' fi (done ++ [file]) evs0
                    Ht Hfi P1 ltac:(intros _; lia) P3) as [rest [Hrest Heq]].
        exists ([file] ++ rest). rewrite app_assoc. split; [exact Hrest|exact Heq].
Qed.

Lemma count_root_nostop : forall mx paths af evs,
  exists af' es, count_root (fun _ => false) mx paths af evs = (af', evs ++ es, false) /\
    Forall (fun e => is_counting e = true) es /\
    (mx = 0 -> af' = af ++ paths).
Proof.
  intros mx paths. induction paths as [|p rest IH]; intros af evs; cbn [count_root].
  - exists af, []. rewrite !app_nil_r. split; [reflexivity|]. split; [constructor|reflexivity].
  - set (n := length (af ++ [p])).
    set (evs2 := if n mod 1000 =? 0 then evs ++ [EvCounting n] else evs).
    assert (Hevs2 : exists es2, evs2 = evs ++ es2 /\ Forall (fun e => is_counting e = true) es2).
    { unfold evs2. destruct (n mod 1000 =? 0); [exists [EvCounting n]|exists []];
        (split; [rewrite ?app_nil_r; reflexivity|repeat constructor]). }
    destruct Hevs2 as [es2 [Hes2 Hf2]]. rewrite Hes2.
    destruct (reached_max mx n) eqn:Er.
    + exists (af ++ [p]), es2. split; [reflexivity|]. split; [exact Hf2|].
      intros ->. discriminate.
    + destruct (IH (af ++ [p]) (evs ++ es2)) as [af' [es [Heq [Hf Hm]]]].
      exists af', (es2 ++ es). rewrite app_assoc. split; [exact Heq|].
      split; [apply Forall_app; auto|]. intros H0. rewrite (Hm H0), <- app_assoc. reflexivity.
Qed.

Lemma count_roots_nostop : forall mx dirs af evs,
  exists af' es, count_roots walk (fun _ => false) mx dirs af evs = (af', evs ++ es, false) /\
    Forall (fun e => is_counting e = true) es /\
    (mx = 0 -> af' = af ++ concat (map walk dirs)).
Proof.
  intros mx dirs. induction dirs as [|d rest IH]; intros af evs; cbn [count_roots].
  - exists af, []. rewrite !app_nil_r. split; [reflexivity|]. split; [constructor|reflexivity].
  - destruct (count_root_nostop mx (walk d) af evs) as [af1 [es1 [E1 [Hf1 Hm1]]]]. rewrite E1.
    destruct (IH af1 (evs ++ es1)) as [af' [es [E [Hf Hm]]]].
    exists af', (es1 ++ es). rewrite app_assoc. split; [exact E|].
    split; [apply Forall_app; auto|]. intros H0. rewrite (Hm H0), (Hm1 H0).
    cbn [map concat]. rewrite app_assoc. reflexivity.
Qed.

(** [scan_directories] with no stop request and [concurrency > 0], for
    any completion order of the thread pool: every file collected by pass 1
    is scanned exactly once, the matches are those of the files in the
    order they complete, and after the counting events come one scanning
    event per file (1, 2, ... files with the matches so far) and a final
    event with all files scanned and all matches. *)
Theorem scan_directories_complete : forall cfg dirs,
  0 < Detection.concurrency cfg ->
  let all := pass1_files walk (fun _ => false) cfg dirs in
  exists ms evs1 order,
    scan_directories A walk scan_file (fun _ => false) (fun _ => false) (fun _ => false) pick cfg dirs
      = Ok (ms, evs1 ++ match all with
                       | [] => []
                       | _ => [EvScanning 0 (length all) 0]
                              ++ scanning_events scan_file (length all) order
                              ++ [EvComplete (length all) (length all) (length ms)]
                       end) /\
    Forall (fun e => is_counting e = true) evs1 /\
    Permutation order all /\ ms = flat_map scan_file order.
Proof.
  intros cfg dirs Hc. cbv zeta. unfold scan_directories, pass1_files.
  destruct (count_roots_nostop (Detection.max_files_per_scan cfg) dirs [] [EvCounting 0])
    as [af [es [E [Hf _]]]]. rewrite E. cbv beta iota zeta.
  assert (Hf' : Forall (fun e => is_counting e = true) ([EvCounting 0] ++ es))
    by (apply Forall_app; split; [repeat constructor|exact Hf]).
  destruct (Nat.eqb_spec (length af) 0) as [H0|H0].
  { apply length_zero_iff_nil in H0. subst af. exists [], ([EvCounting 0] ++ es), [].
    split; [rewrite app_nil_r; reflexivity|]. split; [exact Hf'|]. split; [constructor|reflexivity]. }
  destruct (Nat.eqb_spec (Detection.concurrency cfg) 0) as [Hc0|_]; [lia|].
  set (total := length af) in *.
  set (initial := Nat.min (Detection.concurrency cfg * 2) total).
  set (evs2 := ([EvCounting 0] ++ es) ++ [EvScanning 0 total 0]).
  assert (Hlf : length (firstn initial af) = initial)
    by (rewrite length_firstn; unfold initial, total in *; lia).
  assert (Hp : Permutation ([] ++ firstn initial af) (firstn initial af)) by reflexivity.
  assert (Hend : firstn initial af = [] -> initial = total).
  { intros Hn. rewrite Hn in Hlf. cbn in Hlf. unfold initial in Hlf. lia. }
  assert (Hm : total - initial + length (firstn initial af) <= S total) by lia.
  destruct (pass2_complete (S total) 0 af total (firstn initial af) initial [] evs2 eq_refl
              ltac:(unfold initial; lia) Hp Hend Hm) as [rest [Hrest Heq]].
  change (length (@nil pystr)) with 0 in Heq.
  change (flat_map scan_file []) with (@nil A) in Heq.
  change (scanning_events scan_file total []) with (@nil event) in Heq.
  rewrite app_nil_r in Heq. rewrite !app_nil_l in Heq.
  rewrite Heq.
  exists (flat_map scan_file rest), ([EvCounting 0] ++ es), rest.
  assert (Hlr : length rest = total) by (symmetry; apply Permutation_length; symmetry; exact Hrest).
  split; [|split; [exact Hf'|split; [exact Hrest|reflexivity]]].
  destruct af as [|a0 af']; [cbn in H0; lia|].
  rewrite Hlr. unfold evs2. rewrite <- !app_assoc. reflexivity.
Qed.

(** Pass 1 of [scan_directories] with [max_files_per_scan = 0] (no limit)
    and no stop request collects every path of every root, in order. *)
Theorem pass1_files_no_limit : forall cfg dirs,
  Detection.max_files_per_scan cfg = 0 ->
  pass1_files walk (fun _ => false) cfg dirs = concat (map walk dirs).
Proof.
  intros cfg dirs H0. unfold pass1_files.
  destruct (count_roots_nostop (Detection.max_files_per_scan cfg) dirs [] [EvCounting 0])
    as [af [es [E [_ Hm]]]]. rewrite E. exact (Hm H0).
Qed.

End ScanComplete.

Lemma count_root_length : forall stop mx paths af evs, 0 < mx ->
  length (fst (fst (Scanner.count_root stop mx paths af evs)))
  <= Nat.max (mx - 1) (length af) + 1.
Proof.
  intros stop mx paths. induction paths as [|p rest IH]; intros af evs Hmx; cbn [Scanner.count_root].
  - cbn. lia.
  - set (evs2 := if length (af ++ [p]) mod 1000 =? 0 then _ else _).
    rewrite length_app. cbn [length].
    destruct (stop (length af + 1)); [cbn; rewrite length_app; cbn; lia|].
    unfold Scanner.reached_max.
    destruct (Nat.eqb_spec mx 0) as [|_]; [lia|].
    destruct (Nat.leb_spec mx (length af + 1)); [cbn; rewrite length_app; cbn; lia|].
    specialize (IH (af ++ [p]) evs2 Hmx). rewrite length_app in IH. cbn in IH. lia.
Qed.

(** Pass 1 of [scan_directories] with [max_files_per_scan > 0]: the
    [break] on the cap leaves only the current root, so at most
    [max_files_per_scan - 1 + len(directories)] paths are collected
    (whatever the stop requests). *)
Theorem pass1_files_bound : forall walk stop_pass1 cfg dirs,
  0 < Detection.max_files_per_scan cfg ->
  length (Scanner.pass1_files walk stop_pass1 cfg dirs)
  <= Detection.max_files_per_scan cfg - 1 + length dirs.
Proof.
  intros walk stop cfg dirs Hmx. unfold Scanner.pass1_files.
  assert (H : forall dirs af evs,
    length (fst (fst (Scanner.count_roots walk stop (Detection.max_files_per_scan cfg) dirs af evs)))
    <= Nat.max (Detection.max_files_per_scan cfg - 1) (length af) + length dirs).
  { clear dirs. intros dirs. induction dirs as [|d rest IH]; intros af evs; cbn [Scanner.count_roots].
    - cbn. lia.
    - pose proof (count_root_length stop _ (walk d) af evs Hmx) as H1.
      destruct (Scanner.count_root stop _ (walk d) af evs) as [[af1 evs1] st].
      cbn [fst] in H1. destruct st; [cbn; lia|].
      specialize (IH af1 evs1). cbn [length]. lia. }
  specialize (H dirs [] [Scanner.EvCounting 0]).
  destruct (Scanner.count_roots _ _ _ _ _ _) as [[af evs] st]. cbn in H |- *. lia.
Qed.

Lemma scan_directories_complete_witness :
  0 < Detection.concurrency max_one_config /\
  let all := Scanner.pass1_files one_file_walk (fun _ => false) max_one_config [py "/a"; py "/b"] in
  exists ms evs1 order,
    Scanner.scan_directories unit one_file_walk (fun _ => [tt]) (fun _ => false) (fun _ => false)
      (fun _ => false) (fun _ => 1) max_one_config [py "/a"; py "/b"]
      = Ok (ms, evs1 ++ match all with
                       | [] => []
                       | _ => [Scanner.EvScanning 0 (length all) 0]
                              ++ scanning_events (fun _ => [tt]) (length all) order
                              ++ [Scanner.EvComplete (length all) (length all) (length ms)]
                       end) /\
    Forall (fun e => Scanner.is_counting e = true) evs1 /\
    Permutation order all /\ ms = flat_map (fun _ => [tt]) order.
Proof.
  split; [vm_compute; lia|].
  apply (scan_directories_complete unit one_file_walk (fun _ => [tt]) (fun _ => 1)).
  vm_compute. lia.
Defined.

Lemma pass1_files_no_limit_witness :
  Scanner.pass1_files one_file_walk (fun _ => false)
    {| Detection.require_luhn_validation := true; Detection.minimum_confidence_score := 7 # 10;
       Detection.context_window_chars := 100; Detection.exclude_masked_patterns := true;
       Detection.show_last4_only := true; Detection.allow_full_pan_retention := false;
       Detection.redact_pan := true; Detection.max_files_per_scan := 0;
       Detection.concurrency := 4 |} [py "/a"; py "/b"]
  = concat (map one_file_walk [py "/a"; py "/b"]).
Proof. apply pass1_files_no_limit. reflexivity. Defined.

Lemma pass1_files_bound_witness :
  0 < Detection.max_files_per_scan max_one_config /\
  length (Scanner.pass1_files one_file_walk (fun _ => false) max_one_config [py "/a"; py "/b"])
  <= Detection.max_files_per_scan max_one_config - 1 + length [py "/a"; py "/b"].
Proof.
  split; [vm_compute; lia|]. apply pass1_files_bound. vm_compute. lia.
Defined.
